(** * AuthenaPythonSDK: the user/auth client ([client_user.py])

    A shallow embedding of [ClientUser] and the properties of its
    request/response translation.

    - Python values (the parsed JSON the transport hands back, and the
      request payloads the client builds) are the inductive [PyVal].
    - Python exceptions are the inductive [Exn]; a computation that can
      raise returns a [Result].
    - The HTTP collaborator is a [Server]: a function from the requests
      issued so far and the current request to a reply or a raised error.
      Client methods run in the monad [M], which threads the request log. *)

From Stdlib Require Import String Ascii List ZArith Bool Lia.
From Stdlib Require Import SpecFloat.
Import ListNotations.
Open Scope string_scope.
Open Scope list_scope.

#[local] Set Warnings "-register-all".

(** ** Python values and exceptions *)

(** JSON numbers parse to [int] or [float]; a float is kept as its IEEE
    datum so that its truth value is the one Python computes. *)
Inductive PyVal : Type :=
| PNone
| PBool (b : bool)
| PInt (z : Z)
| PFloat (f : spec_float)
| PStr (s : string)
| PList (l : list PyVal)
| PTuple (l : list PyVal)
| PDict (d : list (string * PyVal)).

(** The exceptions the client can see.  [TransportError] stands for
    whatever the HTTP layer raises; it is propagated unchanged. *)
Inductive Exn : Type :=
| KeyError (key : string)
| TypeError
| AttributeError
| ValueError (msg : string)
| TransportError (info : string).

Inductive Result (A : Type) : Type :=
| Ok (a : A)
| Raise (e : Exn).
Arguments Ok {A} a.
Arguments Raise {A} e.

(** Dictionaries keep insertion order; keys of a JSON object are strings. *)
Definition Dict (V : Type) : Type := list (string * V).

Fixpoint dict_get {V : Type} (k : string) (d : Dict V) : option V :=
  match d with
  | [] => None
  | (k', v) :: d' => if String.eqb k k' then Some v else dict_get k d'
  end.

(** [d[k] = v]: an existing key keeps its position, a new one goes last. *)
Fixpoint dict_set {V : Type} (k : string) (v : V) (d : Dict V) : Dict V :=
  match d with
  | [] => [(k, v)]
  | (k', v') :: d' =>
      if String.eqb k k' then (k, v) :: d' else (k', v') :: dict_set k v d'
  end.

Definition dict_keys {V : Type} (d : Dict V) : list string := map fst d.

(** [{key: value for key, value in d.items() if keep(value)}] *)
Definition dict_comprehension_if {V : Type} (keep : V -> bool) (d : Dict V)
  : Dict V :=
  filter (fun kv => keep (snd kv)) d.

(** [v[k]] for a string subscript [k]. *)
Definition getitem (v : PyVal) (k : string) : Result PyVal :=
  match v with
  | PDict d =>
      match dict_get k d with
      | Some x => Ok x
      | None => Raise (KeyError k)
      end
  | _ => Raise TypeError
  end.

(** [v.items()] *)
Definition items (v : PyVal) : Result (Dict PyVal) :=
  match v with
  | PDict d => Ok d
  | _ => Raise AttributeError
  end.

(** The mapping unpacked when [v] is passed as keyword arguments. *)
Definition kwargs_of (v : PyVal) : Result (Dict PyVal) :=
  match v with
  | PDict d => Ok d
  | _ => Raise TypeError
  end.

(** [v is True] *)
Definition is_True (v : PyVal) : bool :=
  match v with
  | PBool true => true
  | _ => false
  end.

(** [v is not None] *)
Definition is_not_None (v : PyVal) : bool :=
  match v with
  | PNone => false
  | _ => true
  end.

Definition float_is_zero (f : spec_float) : bool :=
  match f with
  | S754_zero _ => true
  | _ => false
  end.

(** Python's truth value testing, as used by [not v]. *)
Definition truthy (v : PyVal) : bool :=
  match v with
  | PNone => false
  | PBool b => b
  | PInt z => negb (Z.eqb z 0)
  | PFloat f => negb (float_is_zero f)
  | PStr s => negb (String.eqb s EmptyString)
  | PList l => match l with [] => false | _ => true end
  | PTuple l => match l with [] => false | _ => true end
  | PDict d => match d with [] => false | _ => true end
  end.

(** Caller-side arguments, typed as the signatures annotate them. *)
Definition of_opt_str (o : option string) : PyVal :=
  match o with
  | Some s => PStr s
  | None => PNone
  end.

Definition of_str_list (l : list string) : PyVal := PList (map PStr l).

Definition of_opt_str_list (o : option (list string)) : PyVal :=
  match o with
  | Some l => of_str_list l
  | None => PNone
  end.

Definition of_opt_bool (o : option bool) : PyVal :=
  match o with
  | Some b => PBool b
  | None => PNone
  end.

(** ** Monads: plain errors, and errors over the request log *)

Class Monad (m : Type -> Type) : Type := {
  ret : forall {A : Type}, A -> m A;
  bind : forall {A B : Type}, m A -> (A -> m B) -> m B
}.

Declare Scope py_scope.
Delimit Scope py_scope with py.
Notation "x <- c1 ;; c2" := (bind c1 (fun x => c2))
  (at level 61, c1 at next level, right associativity) : py_scope.
Notation "c1 ;;; c2" := (bind c1 (fun _ => c2))
  (at level 61, right associativity) : py_scope.
Open Scope py_scope.

#[export] Instance Result_Monad : Monad Result := {
  ret := fun A a => Ok a;
  bind := fun A B r k =>
    match r with
    | Ok a => k a
    | Raise e => Raise e
    end
}.

(** ** The HTTP collaborator *)

Inductive Method : Type := GET | POST | PUT | DELETE.

(** What [http_endpoint(path, method, fields, body)] is given; an argument
    left out is [None]. *)
Record Request : Type := mkRequest {
  path : string;
  method : Method;
  fields : option PyVal;
  body : option PyVal
}.

(** The remote service seen through the transport: the reply to a request
    may depend on every request issued before it. *)
Definition Server : Type := list Request -> Request -> Result PyVal.

(** A client computation: from the log of requests issued so far to an
    outcome and the extended log. *)
Definition M (A : Type) : Type := list Request -> Result A * list Request.

#[export] Instance M_Monad : Monad M := {
  ret := fun A a log => (Ok a, log);
  bind := fun A B c k log =>
    match c log with
    | (Ok a, log') => k a log'
    | (Raise e, log') => (Raise e, log')
    end
}.

Definition raise {A : Type} (e : Exn) : M A := fun log => (Raise e, log).

Definition lift {A : Type} (r : Result A) : M A := fun log => (r, log).

(** Modelled from the spec: [ClientBase.http_endpoint] (client_base.py is
    not part of the sources): it builds the request that the endpoint
    object will send. *)
Definition http_endpoint (p : string) (m : Method)
  (flds : option PyVal) (bdy : option PyVal) : Request :=
  mkRequest p m flds bdy.

(** Modelled from the spec: the endpoint's [call_to_json] (client_base.py is
    not part of the sources): one synchronous request/response; the parsed
    JSON is returned, a transport failure is raised. *)
Definition call_to_json (srv : Server) (req : Request) : M PyVal :=
  fun log => (srv log req, log ++ [req]).

(** Modelled from the spec: the endpoint's [call_to_response] (client_base.py
    is not part of the sources): as [call_to_json], the caller getting the
    raw response, which [ClientUser] never inspects. *)
Definition call_to_response (srv : Server) (req : Request) : M unit :=
  fun log =>
    (match srv log req with
     | Ok _ => Ok tt
     | Raise e => Raise e
     end, log ++ [req]).

(** ** Value objects *)

(** Modelled from the spec: the [User] value object (models/user.py is not
    part of the sources).  A field holds the keyword argument the
    constructor was called with, [None] when the call did not pass it. *)
Record User : Type := mkUser {
  group_ids : option PyVal;
  username : option PyVal;
  preferred_username : option PyVal;
  email : option PyVal;
  first_name : option PyVal;
  last_name : option PyVal;
  tmp_password : option PyVal;
  permissions : option PyVal;
  is_active : option PyVal
}.

(** ** Error messages *)

Definition dquote : string :=
  String (Ascii false true false false false true false false) EmptyString.

(** [ClientUser.__name__] and [ClientUser.confirm.__name__] *)
Definition ClientUser__name__ : string := "ClientUser".
Definition confirm__name__ : string := "confirm".

Definition create_token_message : string :=
  ("User was not confirmed. "
   ++ "Please confirm user first, before creating tokens. "
   ++ "Hint: to confirm user, call " ++ dquote
   ++ ClientUser__name__ ++ "." ++ confirm__name__
   ++ dquote ++ " method.")%string.

Definition confirm_message : string :=
  ("Something went wrong. "
   ++ "Access token was not created, hence, the new user probably was not confirmed. "
   ++ "Please try again, or contact administrators.")%string.

(** ** [ClientUser] *)

Section ClientUser.

(** The injected HTTP-calling abstraction. *)
Variable srv : Server.

(** The [Token] class (models/token.py is not part of the sources):
    [Token_init kwargs] is the constructor called on the unpacked
    keyword arguments, which it may reject. *)
Variable Token : Type.
Variable Token_init : Dict PyVal -> Result Token.

(** [get], lines 18-36 *)
Definition get_request (username : string) : Request :=
  http_endpoint "/user/get" GET
    (Some (PDict [("username", PStr username)])) None.

Definition get (username : string) : M User :=
  user_json <- call_to_json srv (get_request username) ;;
  lift (
    group_ids <- getitem user_json "group_ids" ;;
    username <- getitem user_json "username" ;;
    preferred_username <- getitem user_json "preferred_username" ;;
    email <- getitem user_json "email" ;;
    first_name <- getitem user_json "first_name" ;;
    last_name <- getitem user_json "last_name" ;;
    permissions <- getitem user_json "permissions" ;;
    is_active <- getitem user_json "is_active" ;;
    ret {| group_ids := Some group_ids;
           username := Some username;
           preferred_username := Some preferred_username;
           email := Some email;
           first_name := Some first_name;
           last_name := Some last_name;
           tmp_password := None;
           permissions := Some permissions;
           is_active := Some is_active |}).

(** [create], lines 47-80 *)
Definition create_request
  (email preferred_username first_name last_name : string)
  (username : option string)
  (group_ids permissions : option (list string)) : Request :=
  http_endpoint "/user/create" POST None
    (Some (PDict [
      ("username", of_opt_str username);
      ("group_ids", of_opt_str_list group_ids);
      ("email", PStr email);
      ("preferred_username", PStr preferred_username);
      ("first_name", PStr first_name);
      ("last_name", PStr last_name);
      ("permissions", of_opt_str_list permissions)])).

Definition create
  (email preferred_username first_name last_name : string)
  (username : option string)
  (group_ids permissions : option (list string)) : M User :=
  user_json <- call_to_json srv
    (create_request email preferred_username first_name last_name
       username group_ids permissions) ;;
  lift (
    username' <- getitem user_json "username" ;;
    tmp_password <- getitem user_json "tmp_password" ;;
    ret {| group_ids := Some (of_opt_str_list group_ids);
           username := Some username';
           preferred_username := Some (PStr preferred_username);
           email := Some (PStr email);
           first_name := Some (PStr first_name);
           last_name := Some (PStr last_name);
           tmp_password := Some tmp_password;
           permissions := Some (of_opt_str_list permissions);
           is_active := None |}).

(** [update], lines 100-125 *)
Definition update_body
  (username : string)
  (email preferred_username first_name last_name : option string)
  (group_ids permissions : option (list string)) : Dict PyVal :=
  let body := [
    ("username", PStr username);
    ("email", of_opt_str email);
    ("preferred_username", of_opt_str preferred_username);
    ("first_name", of_opt_str first_name);
    ("last_name", of_opt_str last_name);
    ("group_ids", of_opt_str_list group_ids);
    ("permissions", of_opt_str_list permissions)] in
  dict_comprehension_if is_not_None body.

Definition update
  (username : string)
  (email preferred_username first_name last_name : option string)
  (group_ids permissions : option (list string)) : M unit :=
  let body := update_body username email preferred_username first_name
                last_name group_ids permissions in
  call_to_response srv
    (http_endpoint "/user/update" PUT None (Some (PDict body))).

(** [filter], lines 127-154 *)

(** [usernames or []] *)
Definition usernames_or_empty (usernames : option (list string))
  : list string :=
  match usernames with
  | Some (u :: l) => u :: l
  | _ => []
  end.

Definition filter_fields
  (group_id : option string) (usernames : option (list string))
  (is_active : option bool) : list PyVal :=
  PTuple [PStr "group_id"; of_opt_str group_id]
  :: PTuple [PStr "is_active"; of_opt_bool is_active]
  :: map (fun username => PTuple [PStr "username"; PStr username])
       (usernames_or_empty usernames).

Definition filter_request
  (group_id : option string) (usernames : option (list string))
  (is_active : option bool) : Request :=
  http_endpoint "/user/filter" GET
    (Some (PList (filter_fields group_id usernames is_active))) None.

(** One [User(...)] call of the loop body, lines 145-152. *)
Definition filter_user (user_dict : PyVal) : Result User :=
  group_ids <- getitem user_dict "group_ids" ;;
  username <- getitem user_dict "username" ;;
  preferred_username <- getitem user_dict "preferred_username" ;;
  email <- getitem user_dict "email" ;;
  first_name <- getitem user_dict "first_name" ;;
  last_name <- getitem user_dict "last_name" ;;
  ret {| group_ids := Some group_ids;
         username := Some username;
         preferred_username := Some preferred_username;
         email := Some email;
         first_name := Some first_name;
         last_name := Some last_name;
         tmp_password := None;
         permissions := None;
         is_active := None |}.

(** The [for] loop of lines 144-152 over the remaining items. *)
Fixpoint filter_loop (its : Dict PyVal) (users : Dict User)
  : Result (Dict User) :=
  match its with
  | [] => Ok users
  | (username, user_dict) :: rest =>
      user <- filter_user user_dict ;;
      filter_loop rest (dict_set username user users)
  end.

Definition filter
  (group_id : option string) (usernames : option (list string))
  (is_active : option bool) : M (Dict User) :=
  response_body_json <- call_to_json srv
    (filter_request group_id usernames is_active) ;;
  lift (
    its <- items response_body_json ;;
    filter_loop its []).

(** [confirm], lines 156-190 *)
Definition token_create_request (username password : string) : Request :=
  http_endpoint "/token/create" POST None
    (Some (PDict [("username", PStr username);
                  ("password", PStr password)])).

Definition token_challenge_request
  (challenge_name challenge_session : PyVal)
  (username new_password : string) : Request :=
  http_endpoint "/token/challenge" POST None
    (Some (PDict [
      ("challenge_name", challenge_name);
      ("challenge_session", challenge_session);
      ("challenge_response",
         PDict [("USERNAME", PStr username);
                ("NEW_PASSWORD", PStr new_password)])])).

(** Lines 157-178: the token request and, when a challenge is signalled,
    the reply to it; the result is the final [token_json]. *)
Definition confirm_flow (username tmp_password new_password : string)
  : M PyVal :=
  token_json <- call_to_json srv
    (token_create_request username tmp_password) ;;
  is_challenge <- lift (getitem token_json "is_challenge") ;;
  if is_True is_challenge then
    challenge <- lift (getitem token_json "challenge") ;;
    challenge_name <- lift (getitem challenge "challenge_name") ;;
    challenge' <- lift (getitem token_json "challenge") ;;
    session <- lift (getitem challenge' "session") ;;
    call_to_json srv
      (token_challenge_request challenge_name session
         username new_password)
  else
    ret token_json.

(** Lines 180-183: the [try] block; [except (KeyError, ValueError)]
    turns those two into [None], anything else propagates. *)
Definition confirm_access_token (token_json : PyVal) : Result PyVal :=
  match (authentication <- getitem token_json "authentication" ;;
         getitem authentication "access_token") with
  | Ok access_token => Ok access_token
  | Raise (KeyError _) => Ok PNone
  | Raise (ValueError _) => Ok PNone
  | Raise e => Raise e
  end.

(** Lines 180-190 *)
Definition confirm_check (token_json : PyVal) : Result unit :=
  access_token <- confirm_access_token token_json ;;
  if negb (truthy access_token) then Raise (ValueError confirm_message)
  else Ok tt.

Definition confirm (username tmp_password new_password : string)
  : M unit :=
  token_json <- confirm_flow username tmp_password new_password ;;
  lift (confirm_check token_json).

(** [create_token], lines 203-220 *)
Definition create_token (username password : string) : M Token :=
  token_json <- call_to_json srv
    (token_create_request username password) ;;
  is_challenge <- lift (getitem token_json "is_challenge") ;;
  if is_True is_challenge then
    raise (ValueError create_token_message)
  else
    authentication <- lift (getitem token_json "authentication") ;;
    kwargs <- lift (kwargs_of authentication) ;;
    lift (Token_init kwargs).

End ClientUser.

Arguments create_token srv {Token} Token_init username password.

(** ** [ClientUser]: the remaining methods

    They live in a module of their own: [permissions] is also the name of a
    field of [User]. *)

Module ClientUser.

Section Methods.

Variable srv : Server.
Variable Token : Type.
Variable Token_init : Dict PyVal -> Result Token.

(** [delete], lines 38-45 *)
Definition delete (username : string) : M unit :=
  call_to_response srv
    (http_endpoint "/user/delete" DELETE None
       (Some (PDict [("username", PStr username)]))).

(** [enable], lines 82-89 *)
Definition enable (username : string) : M unit :=
  call_to_response srv
    (http_endpoint "/user/enable" POST None
       (Some (PDict [("username", PStr username)]))).

(** [disable], lines 91-98 *)
Definition disable (username : string) : M unit :=
  call_to_response srv
    (http_endpoint "/user/disable" POST None
       (Some (PDict [("username", PStr username)]))).

(** [validate_token], lines 192-201 *)
Definition validate_token (access_token : string) : M PyVal :=
  response <- call_to_json srv
    (http_endpoint "/token/validate" POST None
       (Some (PDict [("access_token", PStr access_token)]))) ;;
  lift (getitem response "valid").

(** [exchange_auth_code], lines 222-232 *)
Definition exchange_auth_code (authorization_code : string)
  (redirect_uri : option string) : M Token :=
  token_json <- call_to_json srv
    (http_endpoint "/token/create" POST None
       (Some (PDict [("authorization_code", PStr authorization_code);
                     ("redirect_uri", of_opt_str redirect_uri)]))) ;;
  authentication <- lift (getitem token_json "authentication") ;;
  kwargs <- lift (kwargs_of authentication) ;;
  lift (Token_init kwargs).

(** [refresh_token], lines 234-243 *)
Definition refresh_token (refresh_token : string) : M Token :=
  token_json <- call_to_json srv
    (http_endpoint "/token/refresh" POST None
       (Some (PDict [("refresh_token", PStr refresh_token)]))) ;;
  kwargs <- lift (kwargs_of token_json) ;;
  lift (Token_init kwargs).

(** [permissions], lines 245-254 *)
Definition permissions (username : string) : M PyVal :=
  permissions <- call_to_json srv
    (http_endpoint "/permission/get" GET
       (Some (PDict [("username", PStr username)])) None) ;;
  lift (getitem permissions "permissions").

End Methods.

Arguments exchange_auth_code srv {Token} Token_init authorization_code
  redirect_uri.
Arguments refresh_token srv {Token} Token_init refresh_token.

End ClientUser.

(** ** Observing a run *)

(** The requests a computation issues when started after [log]. *)
Definition requests_made {A : Type} (c : M A) (log : list Request)
  : list Request :=
  skipn (length log) (snd (c log)).

(** The outcome of a run. *)
Definition outcome {A : Type} (c : M A) (log : list Request) : Result A :=
  fst (c log).

Definition returns_normally {A : Type} (r : Result A) : bool :=
  match r with
  | Ok _ => true
  | Raise _ => false
  end.

(** The key of a [(key, value)] query field. *)
Definition field_key (t : PyVal) : option string :=
  match t with
  | PTuple [PStr k; _] => Some k
  | _ => None
  end.

Definition has_key (k : string) (t : PyVal) : bool :=
  match field_key t with
  | Some k' => String.eqb k k'
  | None => false
  end.

(** A request payload that carries nothing. *)
Definition empty_body (b : option PyVal) : Prop :=
  b = None \/ b = Some (PDict []).

(** A field of a [User] that the constructor call passed. *)
Definition populated (fld : User -> option PyVal) (u : User) : Prop :=
  fld u <> None.

(** The non-null subset of [update]'s optional fields: an entry for each
    field that was given, none for a field that is null. *)
Definition optional_entry {A : Type} (k : string) (conv : A -> PyVal)
  (o : option A) : Dict PyVal :=
  match o with
  | Some a => [(k, conv a)]
  | None => []
  end.

Definition non_null_subset
  (email preferred_username first_name last_name : option string)
  (group_ids permissions : option (list string)) : Dict PyVal :=
  optional_entry "email" PStr email
  ++ optional_entry "preferred_username" PStr preferred_username
  ++ optional_entry "first_name" PStr first_name
  ++ optional_entry "last_name" PStr last_name
  ++ optional_entry "group_ids" of_str_list group_ids
  ++ optional_entry "permissions" of_str_list permissions.

(** ** Example services *)

(** A service that gives the same reply to every request. *)
Definition constant_service (reply : PyVal) : Server :=
  fun _ _ => Ok reply.

(** A reply that signals a pending challenge, and one that carries tokens. *)
Definition challenge_reply : PyVal :=
  PDict [("is_challenge", PBool true);
         ("challenge", PDict [("challenge_name", PStr "NEW_PASSWORD_REQUIRED");
                              ("session", PStr "session-1")]);
         ("authentication", PNone)].

Definition token_reply : PyVal :=
  PDict [("is_challenge", PBool false);
         ("challenge", PNone);
         ("authentication", PDict [("access_token", PStr "access-1");
                                   ("refresh_token", PStr "refresh-1")])].

(** A service that challenges on /token/create and issues tokens on
    /token/challenge. *)
Definition challenging_service : Server :=
  fun _ req =>
    if String.eqb (path req) "/token/create" then Ok challenge_reply
    else if String.eqb (path req) "/token/challenge" then Ok token_reply
    else Raise (TransportError "not found").

(** A Token that is the bag of its keyword arguments. *)
Definition bag_token (kwargs : Dict PyVal) : Result (Dict PyVal) := Ok kwargs.

(** A token reply whose authentication member is null. *)
Definition null_authentication_reply : PyVal :=
  PDict [("is_challenge", PBool false);
         ("challenge", PNone);
         ("authentication", PNone)].

(** A service that challenges on /token/create and, on /token/challenge,
    answers with a null authentication member. *)
Definition rechallenging_service : Server :=
  fun _ req =>
    if String.eqb (path req) "/token/create" then Ok challenge_reply
    else Ok (PDict [("is_challenge", PBool true);
                    ("challenge", PDict [("challenge_name", PStr "MFA");
                                         ("session", PStr "session-2")]);
                    ("authentication", PNone)]).

(** ** What a final token reply carries *)

(** The reply has a non-empty access token under its authentication object:
    the object is there, it has the member, and the member's truth value is
    true. *)
Definition carries_access_token (token_json : PyVal) : Prop :=
  exists (d auth : Dict PyVal) (tok : PyVal),
    token_json = PDict d
    /\ dict_get "authentication" d = Some (PDict auth)
    /\ dict_get "access_token" auth = Some tok
    /\ truthy tok = true.


(** ** What a filtered User carries *)

(** A User limited to group membership: who it is and the groups it is in;
    no profile field, permission, activity flag or password is passed. *)
Definition group_membership_only (u : User) : Prop :=
  ~ populated preferred_username u
  /\ ~ populated email u
  /\ ~ populated first_name u
  /\ ~ populated last_name u
  /\ ~ populated permissions u
  /\ ~ populated is_active u
  /\ ~ populated tmp_password u.

(** The User that [filter] builds from one entry of the reply: six members
    read from the entry, the other three fields not passed. *)
Definition partial_user_of (user_dict : PyVal) (u : User) : Prop :=
  exists g n p e f l : PyVal,
    getitem user_dict "group_ids" = Ok g
    /\ getitem user_dict "username" = Ok n
    /\ getitem user_dict "preferred_username" = Ok p
    /\ getitem user_dict "email" = Ok e
    /\ getitem user_dict "first_name" = Ok f
    /\ getitem user_dict "last_name" = Ok l
    /\ u = {| group_ids := Some g;
              username := Some n;
              preferred_username := Some p;
              email := Some e;
              first_name := Some f;
              last_name := Some l;
              tmp_password := None;
              permissions := None;
              is_active := None |}.

Definition filter_reply : PyVal :=
  PDict [("alice",
          PDict [("group_ids", PList [PStr "admins"]);
                 ("username", PStr "alice");
                 ("preferred_username", PStr "ally");
                 ("email", PStr "alice@example.org");
                 ("first_name", PStr "Alice");
                 ("last_name", PStr "Liddell")])].

(** ** A service that remembers what was created *)

(** The body of the latest request sent to /user/create. *)
Definition created_body (log : list Request) : option PyVal :=
  match find (fun r => String.eqb (path r) "/user/create") (rev log) with
  | Some r => body r
  | None => None
  end.

(** The reply to /user/get names the user asked for and repeats the profile
    members of the body [created] that /user/create was sent. *)
Definition reply_echoes_created (created : PyVal) (name : string)
  (reply : PyVal) : Prop :=
  getitem reply "username" = Ok (PStr name)
  /\ Forall (fun k => getitem reply k = getitem created k)
       ["email"; "preferred_username"; "first_name"; "last_name"].

(** After [log], the service answers any GET /user/get whose query asks for
    [name] from what the latest /user/create was sent.  Nothing is said of a
    request with another verb, path or query. *)
Definition answers_get_from_created (srv : Server) (log : list Request)
  (name : string) : Prop :=
  forall (r : Request) (q : Dict PyVal),
    method r = GET ->
    path r = "/user/get" ->
    fields r = Some (PDict q) ->
    dict_get "username" q = Some (PStr name) ->
    exists sent reply : PyVal,
      created_body log = Some sent
      /\ srv log r = Ok reply
      /\ reply_echoes_created sent name reply.

(** /user/create assigns the username u-1; /user/get for u-1 answers from
    the body of the latest /user/create, and knows no other user. *)
Definition store_service : Server :=
  fun log req =>
    if String.eqb (path req) "/user/create" then
      Ok (PDict [("username", PStr "u-1"); ("tmp_password", PStr "Tmp!1")])
    else if String.eqb (path req) "/user/get" then
      match fields req, created_body log with
      | Some q, Some created =>
          match getitem q "username" with
          | Ok (PStr n) =>
              if String.eqb n "u-1" then
                e <- getitem created "email" ;;
                p <- getitem created "preferred_username" ;;
                f <- getitem created "first_name" ;;
                l <- getitem created "last_name" ;;
                g <- getitem created "group_ids" ;;
                perms <- getitem created "permissions" ;;
                Ok (PDict [("group_ids", g); ("username", PStr "u-1");
                           ("preferred_username", p); ("email", e);
                           ("first_name", f); ("last_name", l);
                           ("permissions", perms);
                           ("is_active", PBool true)])
              else Raise (TransportError "not found")
          | _ => Raise (TransportError "bad request")
          end
      | _, _ => Raise (TransportError "not found")
      end
    else Raise (TransportError "not found").

(** A service that stores e-mail addresses in lower case: /user/create
    assigns the username alice, /user/get answers with the stored user. *)
Definition lowercasing_service : Server :=
  fun _ req =>
    if String.eqb (path req) "/user/create" then
      Ok (PDict [("username", PStr "alice"); ("tmp_password", PStr "Tmp!1")])
    else
      Ok (PDict [("group_ids", PList []);
                 ("username", PStr "alice");
                 ("preferred_username", PStr "ally");
                 ("email", PStr "alice@example.org");
                 ("first_name", PStr "Alice");
                 ("last_name", PStr "Liddell");
                 ("permissions", PList []);
                 ("is_active", PBool true)]).

(** ** Requests on the wire *)

Definition endpoint_of (r : Request) : Method * string :=
  (method r, path r).

(** A GET request carries query fields and no body; any other request a
    body and no query fields. *)
Definition payload_well_placed (r : Request) : Prop :=
  match method r with
  | GET => fields r <> None /\ body r = None
  | _ => fields r = None /\ body r <> None
  end.

(** A computation that issues no request. *)
Definition issues_nothing {A : Type} (c : M A) : Prop :=
  forall log, snd (c log) = log.

(** A service the transport cannot reach. *)
Definition unreachable_service : Server :=
  fun _ _ => Raise (TransportError "connection refused").

(** The transport raises [e] for one of the requests that [c] issues when
    started after [log]: the request at some position [i], answered after
    the log and the requests issued before it. *)
Definition transport_raises {A : Type} (srv : Server) (c : M A)
  (log : list Request) (e : Exn) : Prop :=
  exists (i : nat) (req : Request),
    nth_error (requests_made c log) i = Some req
    /\ srv (log ++ firstn i (requests_made c log)) req = Raise e.

(** A service that challenges on /token/create and drops the connection on
    anything else. *)
Definition dropping_service : Server :=
  fun _ req =>
    if String.eqb (path req) "/token/create" then Ok challenge_reply
    else Raise (TransportError "connection reset").

(** ** Reply objects that have what a method reads *)

(** The members [get] reads, in the order it reads them. *)
Definition get_members : list string :=
  ["group_ids"; "username"; "preferred_username"; "email"; "first_name";
   "last_name"; "permissions"; "is_active"].

(** The members [filter] reads from each entry, in the order it reads
    them. *)
Definition filter_members : list string :=
  ["group_ids"; "username"; "preferred_username"; "email"; "first_name";
   "last_name"].

Definition has_members (ks : list string) (v : PyVal) : Prop :=
  exists d : Dict PyVal,
    v = PDict d /\ Forall (fun k => dict_get k d <> None) ks.

(** The first of [ks] that [d] lacks. *)
Definition first_missing (ks : list string) (d : Dict PyVal)
  : option string :=
  find (fun k => match dict_get k d with Some _ => false | None => true end)
    ks.

(** An entry of [filter]'s result against the entry of the reply it was
    built from: same key, and the User is the one built from the value. *)
Definition entry_built (kv : string * PyVal) (ku : string * User) : Prop :=
  fst ku = fst kv /\ partial_user_of (snd kv) (snd ku).

(** A complete user object, as /user/get would send it. *)
Definition full_user_reply : PyVal :=
  PDict [("group_ids", PList [PStr "admins"]);
         ("username", PStr "alice");
         ("preferred_username", PStr "ally");
         ("email", PStr "alice@example.org");
         ("first_name", PStr "Alice");
         ("last_name", PStr "Liddell");
         ("permissions", PList [PStr "read"]);
         ("is_active", PBool true)].

(** ** Running the monad *)

Lemma skipn_length_app {A : Type} (l l' : list A) :
  skipn (length l) (l ++ l') = l'.
Proof.
  induction l as [| a l IH]; simpl; [reflexivity | exact IH].
Qed.

Lemma call_to_json_run (srv : Server) (req : Request) (log : list Request) :
  call_to_json srv req log = (srv log req, log ++ [req]).
Proof. reflexivity. Qed.

Lemma bind_M_run {A B : Type} (c : M A) (k : A -> M B) (log : list Request) :
  bind c k log =
  match c log with
  | (Ok a, log') => k a log'
  | (Raise e, log') => (Raise e, log')
  end.
Proof. reflexivity. Qed.

Lemma getitem_dict (d : Dict PyVal) (k : string) (v : PyVal) :
  dict_get k d = Some v -> getitem (PDict d) k = Ok v.
Proof. intros H. unfold getitem. rewrite H. reflexivity. Qed.

Lemma is_True_false_iff (v : PyVal) : is_True v = false <-> v <> PBool true.
Proof.
  split.
  - intros H E. subst v. discriminate H.
  - intros H. destruct v as [| [|] | | | | | |]; try reflexivity.
    exfalso. apply H. reflexivity.
Qed.

(** ** [create_token] *)

Lemma create_token_outcome (srv : Server) (Token : Type)
  (Token_init : Dict PyVal -> Result Token) (username password : string)
  (log : list Request) (reply : PyVal) :
  srv log (token_create_request username password) = Ok reply ->
  create_token srv Token_init username password log
  = (match getitem reply "is_challenge" with
     | Raise e => Raise e
     | Ok c =>
         if is_True c then Raise (ValueError create_token_message)
         else match getitem reply "authentication" with
              | Raise e => Raise e
              | Ok (PDict auth) => Token_init auth
              | Ok _ => Raise TypeError
              end
     end,
     log ++ [token_create_request username password]).
Proof.
  intros Hsrv. unfold create_token.
  rewrite bind_M_run, call_to_json_run, Hsrv.
  rewrite bind_M_run. unfold lift at 1.
  destruct (getitem reply "is_challenge") as [c | e]; [| reflexivity].
  destruct (is_True c); [reflexivity |].
  rewrite bind_M_run. unfold lift at 1.
  destruct (getitem reply "authentication") as [a | e]; [| reflexivity].
  rewrite bind_M_run. unfold lift at 1.
  destruct a; reflexivity.
Qed.

(** A reply that signals no challenge and has no authentication member, and
    one whose authentication member is null: [create_token] returns no Token
    for either, it raises [KeyError] and [TypeError]. *)
Lemma create_token_no_challenge_no_token :
  dict_get "is_challenge" [("is_challenge", PBool false)]
    <> Some (PBool true)
  /\ outcome (create_token
               (constant_service (PDict [("is_challenge", PBool false)]))
               bag_token "alice" "pw") []
     = Raise (KeyError "authentication")
  /\ outcome (create_token (constant_service null_authentication_reply)
               bag_token "alice" "pw") []
     = Raise TypeError
  /\ ~ (exists t,
          outcome (create_token
                     (constant_service (PDict [("is_challenge", PBool false)]))
                     bag_token "alice" "pw") []
          = Ok t).
Proof.
  split; [discriminate |].
  split; [reflexivity |].
  split; [reflexivity |].
  intros [t H]. discriminate H.
Qed.

(** C1, as the code has it.  When the reply to POST /token/create carries
    [is_challenge] equal to true, [create_token] raises [ValueError] with
    the message that says the user was not confirmed and must be confirmed
    first, and so returns no Token.  Otherwise it returns a Token only when
    the reply is an object with an [is_challenge] entry and an
    [authentication] object: its outcome is then that of building the Token
    from the members of that object.  A reply object without the
    [is_challenge] entry, or without the [authentication] member, raises
    [KeyError] naming it; a reply, or an [authentication] member, that is
    not an object raises [TypeError].  Either way one request is issued. *)
Theorem create_token_challenge_or_token :
  forall (srv : Server) (Token : Type)
         (Token_init : Dict PyVal -> Result Token)
         (username password : string) (log : list Request)
         (reply : PyVal),
    srv log (token_create_request username password) = Ok reply ->
    (forall token_json : Dict PyVal,
       reply = PDict token_json ->
       dict_get "is_challenge" token_json = Some (PBool true) ->
       create_token srv Token_init username password log
       = (Raise (ValueError create_token_message),
          log ++ [token_create_request username password])
       /\ index 0 "User was not confirmed" create_token_message = Some 0%nat
       /\ index 0 "Please confirm user first" create_token_message
          = Some 24%nat)
    /\ (forall (token_json : Dict PyVal) (is_challenge : PyVal)
               (authentication : Dict PyVal),
          reply = PDict token_json ->
          dict_get "is_challenge" token_json = Some is_challenge ->
          is_challenge <> PBool true ->
          dict_get "authentication" token_json
            = Some (PDict authentication) ->
          create_token srv Token_init username password log
          = (Token_init authentication,
             log ++ [token_create_request username password]))
    /\ (forall token_json : Dict PyVal,
          reply = PDict token_json ->
          dict_get "is_challenge" token_json = None ->
          create_token srv Token_init username password log
          = (Raise (KeyError "is_challenge"),
             log ++ [token_create_request username password]))
    /\ (forall (token_json : Dict PyVal) (is_challenge : PyVal),
          reply = PDict token_json ->
          dict_get "is_challenge" token_json = Some is_challenge ->
          is_challenge <> PBool true ->
          dict_get "authentication" token_json = None ->
          create_token srv Token_init username password log
          = (Raise (KeyError "authentication"),
             log ++ [token_create_request username password]))
    /\ (forall (token_json : Dict PyVal) (is_challenge a : PyVal),
          reply = PDict token_json ->
          dict_get "is_challenge" token_json = Some is_challenge ->
          is_challenge <> PBool true ->
          dict_get "authentication" token_json = Some a ->
          (forall authentication, a <> PDict authentication) ->
          create_token srv Token_init username password log
          = (Raise TypeError,
             log ++ [token_create_request username password]))
    /\ ((forall token_json, reply <> PDict token_json) ->
        create_token srv Token_init username password log
        = (Raise TypeError,
           log ++ [token_create_request username password])).
Proof.
  intros srv Token Token_init username password log reply Hsrv.
  rewrite (create_token_outcome _ _ _ _ _ _ _ Hsrv).
  repeat match goal with
         | |- _ /\ _ => split
         end.
  - intros d -> Hch. rewrite (getitem_dict _ _ _ Hch).
    split; [reflexivity | split; reflexivity].
  - intros d c auth -> Hch Hne Hauth. apply is_True_false_iff in Hne.
    rewrite (getitem_dict _ _ _ Hch), Hne, (getitem_dict _ _ _ Hauth).
    reflexivity.
  - intros d -> Hch. cbn [getitem]. rewrite Hch. reflexivity.
  - intros d c -> Hch Hne Hauth. apply is_True_false_iff in Hne.
    rewrite (getitem_dict _ _ _ Hch), Hne.
    cbn [getitem]. rewrite Hauth. reflexivity.
  - intros d c a -> Hch Hne Hauth Hno. apply is_True_false_iff in Hne.
    rewrite (getitem_dict _ _ _ Hch), Hne, (getitem_dict _ _ _ Hauth).
    destruct a as [| | | | | | | auth]; try reflexivity.
    exfalso. apply (Hno auth). reflexivity.
  - intros Hno. destruct reply as [| | | | | | | d]; try reflexivity.
    exfalso. apply (Hno d). reflexivity.
Qed.

(** A challenged account and a confirmed one. *)
Lemma create_token_challenge_or_token_witness :
  create_token (constant_service challenge_reply) bag_token "alice" "pw" []
  = (Raise (ValueError create_token_message),
     [token_create_request "alice" "pw"])
  /\ create_token (constant_service token_reply) bag_token "alice" "pw" []
     = (Ok [("access_token", PStr "access-1");
            ("refresh_token", PStr "refresh-1")],
        [token_create_request "alice" "pw"]).
Proof.
  split.
  - apply (proj1 (create_token_challenge_or_token
                    (constant_service challenge_reply) _ bag_token
                    "alice" "pw" [] challenge_reply eq_refl)
             _ eq_refl eq_refl).
  - apply (proj1 (proj2 (create_token_challenge_or_token
                    (constant_service token_reply) _ bag_token
                    "alice" "pw" [] token_reply eq_refl))
             _ (PBool false) _ eq_refl eq_refl).
    + discriminate.
    + reflexivity.
Defined.

(** ** [confirm]: the requests issued *)

(** C4.  When the reply to [confirm]'s POST /token/create carries
    [is_challenge] equal to false, the only request [confirm] issues is that
    one; nothing goes to /token/challenge. *)
Theorem confirm_no_challenge_single_request :
  forall (srv : Server) (username tmp_password new_password : string)
         (log : list Request) (token_json : Dict PyVal),
    srv log (token_create_request username tmp_password)
      = Ok (PDict token_json) ->
    dict_get "is_challenge" token_json = Some (PBool false) ->
    requests_made (confirm srv username tmp_password new_password) log
      = [token_create_request username tmp_password]
    /\ path (token_create_request username tmp_password) = "/token/create"
    /\ ~ In "/token/challenge"
         (map path
            (requests_made
               (confirm srv username tmp_password new_password) log)).
Proof.
  intros srv username tmp_password new_password log token_json Hsrv Hch.
  assert (Hreq :
    requests_made (confirm srv username tmp_password new_password) log
      = [token_create_request username tmp_password]).
  { unfold requests_made, confirm, confirm_flow.
    rewrite !bind_M_run, call_to_json_run, Hsrv.
    unfold lift at 2.
    rewrite (getitem_dict _ _ _ Hch). cbn [is_True].
    unfold ret, M_Monad, lift.
    destruct (confirm_check (PDict token_json)); cbn [snd];
      apply skipn_length_app. }
  split; [exact Hreq | split; [reflexivity |]].
  rewrite Hreq. cbn. intros [H | []]. discriminate H.
Qed.

(** A service that issues tokens at once. *)
Lemma confirm_no_challenge_single_request_witness :
  requests_made (confirm (constant_service token_reply) "alice" "tmp" "new") []
  = [token_create_request "alice" "tmp"].
Proof.
  apply (confirm_no_challenge_single_request
           (constant_service token_reply) "alice" "tmp" "new" []
           [("is_challenge", PBool false);
            ("challenge", PNone);
            ("authentication", PDict [("access_token", PStr "access-1");
                                      ("refresh_token", PStr "refresh-1")])]).
  - reflexivity.
  - reflexivity.
Defined.

(** ** [create] *)

Lemma create_run (srv : Server)
  (email preferred_username first_name last_name : string)
  (username : option string) (group_ids permissions : option (list string))
  (log : list Request) :
  snd (create srv email preferred_username first_name last_name
         username group_ids permissions log)
  = log ++ [create_request email preferred_username first_name last_name
              username group_ids permissions].
Proof.
  unfold create. rewrite bind_M_run, call_to_json_run.
  destruct (srv log _); reflexivity.
Qed.

(** C8.  [create] issues one POST /user/create whose body always has the
    seven keys username, group_ids, email, preferred_username, first_name,
    last_name, permissions, each bound to the argument given; an optional
    argument left out is sent as null, where [update] would drop the key. *)
Theorem create_body_all_seven_keys :
  forall (srv : Server)
         (email preferred_username first_name last_name : string)
         (username : option string)
         (group_ids permissions : option (list string))
         (log : list Request),
    exists (req : Request) (d : Dict PyVal),
      requests_made
        (create srv email preferred_username first_name last_name
           username group_ids permissions) log = [req]
      /\ path req = "/user/create" /\ method req = POST
      /\ body req = Some (PDict d)
      /\ dict_keys d = ["username"; "group_ids"; "email";
                        "preferred_username"; "first_name"; "last_name";
                        "permissions"]
      /\ dict_get "username" d = Some (of_opt_str username)
      /\ dict_get "group_ids" d = Some (of_opt_str_list group_ids)
      /\ dict_get "email" d = Some (PStr email)
      /\ dict_get "preferred_username" d = Some (PStr preferred_username)
      /\ dict_get "first_name" d = Some (PStr first_name)
      /\ dict_get "last_name" d = Some (PStr last_name)
      /\ dict_get "permissions" d = Some (of_opt_str_list permissions)
      /\ of_opt_str None = PNone
      /\ of_opt_str_list None = PNone
      /\ dict_get "group_ids"
           (update_body "u" None None None None None None) = None.
Proof.
  intros srv email preferred_username first_name last_name
         username group_ids permissions log.
  eexists. eexists. split.
  - unfold requests_made. rewrite create_run. apply skipn_length_app.
  - cbn. repeat split; reflexivity.
Qed.

Lemma create_ok_inv (srv : Server)
  (email' preferred_username' first_name' last_name' : string)
  (username' : option string) (group_ids' permissions' : option (list string))
  (log log' : list Request) (u : User) :
  create srv email' preferred_username' first_name' last_name'
    username' group_ids' permissions' log = (Ok u, log') ->
  log' = log ++ [create_request email' preferred_username' first_name'
                   last_name' username' group_ids' permissions']
  /\ exists (user_json name tmp : PyVal),
      srv log (create_request email' preferred_username' first_name'
                 last_name' username' group_ids' permissions')
        = Ok user_json
      /\ getitem user_json "username" = Ok name
      /\ getitem user_json "tmp_password" = Ok tmp
      /\ u = {| group_ids := Some (of_opt_str_list group_ids');
                username := Some name;
                preferred_username := Some (PStr preferred_username');
                email := Some (PStr email');
                first_name := Some (PStr first_name');
                last_name := Some (PStr last_name');
                tmp_password := Some tmp;
                permissions := Some (of_opt_str_list permissions');
                is_active := None |}.
Proof.
  unfold create. rewrite bind_M_run, call_to_json_run.
  destruct (srv log _) as [user_json | e] eqn:Hsrv; [| discriminate].
  unfold lift. cbn [bind Result_Monad].
  destruct (getitem user_json "username") as [name | e] eqn:Hname;
    [| discriminate].
  destruct (getitem user_json "tmp_password") as [tmp | e] eqn:Htmp;
    [| discriminate].
  cbn [ret]. intros H. injection H as Hu Hlog.
  split; [symmetry; exact Hlog |].
  exists user_json, name, tmp. subst u.
  split; [reflexivity | split; [exact Hname | split; [exact Htmp |]]].
  reflexivity.
Qed.

(** C9.  A [create] that returns hands back a User whose email,
    preferred_username, first_name, last_name, group_ids and permissions are
    the caller's arguments (group_ids and permissions null when left out);
    only username and tmp_password are read from the reply. *)
Theorem create_returns_caller_values :
  forall (srv : Server)
         (email' preferred_username' first_name' last_name' : string)
         (username' : option string)
         (group_ids' permissions' : option (list string))
         (log log' : list Request) (u : User),
    create srv email' preferred_username' first_name' last_name'
      username' group_ids' permissions' log = (Ok u, log') ->
    exists (user_json name tmp : PyVal),
      srv log (create_request email' preferred_username' first_name'
                 last_name' username' group_ids' permissions')
        = Ok user_json
      /\ getitem user_json "username" = Ok name
      /\ getitem user_json "tmp_password" = Ok tmp
      /\ u = {| group_ids := Some (of_opt_str_list group_ids');
                username := Some name;
                preferred_username := Some (PStr preferred_username');
                email := Some (PStr email');
                first_name := Some (PStr first_name');
                last_name := Some (PStr last_name');
                tmp_password := Some tmp;
                permissions := Some (of_opt_str_list permissions');
                is_active := None |}.
Proof.
  intros srv email' preferred_username' first_name' last_name'
         username' group_ids' permissions' log log' u H.
  exact (proj2 (create_ok_inv _ _ _ _ _ _ _ _ _ _ _ H)).
Qed.

(** A creation that leaves username and group_ids out. *)
Lemma create_returns_caller_values_witness :
  exists (user_json name tmp : PyVal),
    constant_service
      (PDict [("username", PStr "u-17"); ("tmp_password", PStr "Tmp!1")]) []
      (create_request "a@example.org" "ally" "Al" "Ly" None None
         (Some ["read"]))
    = Ok user_json
    /\ getitem user_json "username" = Ok name
    /\ getitem user_json "tmp_password" = Ok tmp
    /\ {| group_ids := Some PNone;
          username := Some (PStr "u-17");
          preferred_username := Some (PStr "ally");
          email := Some (PStr "a@example.org");
          first_name := Some (PStr "Al");
          last_name := Some (PStr "Ly");
          tmp_password := Some (PStr "Tmp!1");
          permissions := Some (PList [PStr "read"]);
          is_active := None |}
       = {| group_ids := Some (of_opt_str_list None);
            username := Some name;
            preferred_username := Some (PStr "ally");
            email := Some (PStr "a@example.org");
            first_name := Some (PStr "Al");
            last_name := Some (PStr "Ly");
            tmp_password := Some tmp;
            permissions := Some (of_opt_str_list (Some ["read"]));
            is_active := None |}.
Proof.
  apply (create_returns_caller_values
           (constant_service
              (PDict [("username", PStr "u-17");
                      ("tmp_password", PStr "Tmp!1")]))
           "a@example.org" "ally" "Al" "Ly" None None (Some ["read"])
           [] [create_request "a@example.org" "ally" "Al" "Ly" None None
                 (Some ["read"])]).
  reflexivity.
Defined.

(** ** [update] *)

Lemma update_run (srv : Server) (username : string)
  (email preferred_username first_name last_name : option string)
  (group_ids permissions : option (list string)) (log : list Request) :
  requests_made
    (update srv username email preferred_username first_name last_name
       group_ids permissions) log
  = [http_endpoint "/user/update" PUT None
       (Some (PDict (update_body username email preferred_username
                       first_name last_name group_ids permissions)))].
Proof.
  unfold requests_made, update, call_to_response. cbn [snd].
  apply skipn_length_app.
Qed.

(** With every optional field null the body still names the user. *)
Lemma update_all_null_body_not_empty :
  exists req : Request,
    requests_made
      (update (constant_service PNone) "alice" None None None None None None)
      [] = [req]
    /\ ~ empty_body (body req).
Proof.
  eexists. split.
  - apply update_run.
  - cbn. intros [H | H]; discriminate H.
Qed.

(** C3, as the code has it.  [update] issues one PUT /user/update whose body
    is the username entry followed by exactly the optional fields that are
    not null; with every optional field null the body is the username entry
    alone. *)
Theorem update_body_username_and_non_null :
  forall (srv : Server) (username : string)
         (email preferred_username first_name last_name : option string)
         (group_ids permissions : option (list string))
         (log : list Request),
    exists (req : Request) (d : Dict PyVal),
      requests_made
        (update srv username email preferred_username first_name last_name
           group_ids permissions) log = [req]
      /\ path req = "/user/update" /\ method req = PUT
      /\ body req = Some (PDict d)
      /\ d = ("username", PStr username)
             :: non_null_subset email preferred_username first_name
                  last_name group_ids permissions
      /\ update_body username None None None None None None
         = [("username", PStr username)].
Proof.
  intros srv username email preferred_username first_name last_name
         group_ids permissions log.
  eexists. eexists. split; [apply update_run |].
  cbn [path method body http_endpoint].
  repeat (split; [reflexivity |]).
  split; [| reflexivity].
  destruct email, preferred_username, first_name, last_name,
           group_ids, permissions; reflexivity.
Qed.

(** ** [filter]: the query *)

Lemma filter_run (srv : Server) (group_id : option string)
  (usernames : option (list string)) (is_active : option bool)
  (log : list Request) :
  snd (filter srv group_id usernames is_active log)
  = log ++ [filter_request group_id usernames is_active].
Proof.
  unfold filter. rewrite bind_M_run, call_to_json_run.
  destruct (srv log _); reflexivity.
Qed.

Lemma usernames_or_empty_spec (usernames : option (list string)) :
  usernames_or_empty usernames
  = match usernames with Some l => l | None => [] end.
Proof. destruct usernames as [[| u l] |]; reflexivity. Qed.

Lemma filter_username_fields (l : list string) :
  List.filter (has_key "username")
    (map (fun u => PTuple [PStr "username"; PStr u]) l)
  = map (fun u => PTuple [PStr "username"; PStr u]) l.
Proof.
  induction l as [| u l IH]; [reflexivity |].
  cbn [map List.filter]. change (has_key "username" _) with true.
  cbn iota. f_equal. exact IH.
Qed.

(** C5.  [filter] issues one GET /user/filter whose query fields are the
    group_id and is_active entries followed by one (username, u) entry per
    given username, in order: the username-keyed entries are exactly those
    N, and a scalar filter appears with a value exactly when it was set to
    that value (an unset one is carried with a null value). *)
Theorem filter_fields_repeated_usernames :
  forall (srv : Server) (group_id : option string)
         (usernames : option (list string)) (is_active : option bool)
         (log : list Request),
    let us := match usernames with Some l => l | None => [] end in
    exists (req : Request) (flds : list PyVal),
      requests_made (filter srv group_id usernames is_active) log = [req]
      /\ path req = "/user/filter" /\ method req = GET
      /\ fields req = Some (PList flds)
      /\ flds = PTuple [PStr "group_id"; of_opt_str group_id]
                :: PTuple [PStr "is_active"; of_opt_bool is_active]
                :: map (fun u => PTuple [PStr "username"; PStr u]) us
      /\ List.filter (has_key "username") flds
         = map (fun u => PTuple [PStr "username"; PStr u]) us
      /\ length (List.filter (has_key "username") flds) = length us
      /\ (forall g : string,
            In (PTuple [PStr "group_id"; PStr g]) flds <-> group_id = Some g)
      /\ (forall b : bool,
            In (PTuple [PStr "is_active"; PBool b]) flds
            <-> is_active = Some b).
Proof.
  intros srv group_id usernames is_active log us.
  exists (filter_request group_id usernames is_active).
  exists (filter_fields group_id usernames is_active).
  split.
  { unfold requests_made. rewrite filter_run. apply skipn_length_app. }
  repeat (split; [reflexivity |]).
  assert (Hflds :
    filter_fields group_id usernames is_active
    = PTuple [PStr "group_id"; of_opt_str group_id]
      :: PTuple [PStr "is_active"; of_opt_bool is_active]
      :: map (fun u => PTuple [PStr "username"; PStr u]) us).
  { unfold filter_fields. rewrite usernames_or_empty_spec. reflexivity. }
  rewrite Hflds.
  assert (Hsel :
    List.filter (has_key "username")
      (PTuple [PStr "group_id"; of_opt_str group_id]
       :: PTuple [PStr "is_active"; of_opt_bool is_active]
       :: map (fun u => PTuple [PStr "username"; PStr u]) us)
    = map (fun u => PTuple [PStr "username"; PStr u]) us).
  { cbn [List.filter].
    change (has_key "username" (PTuple [PStr "group_id"; _])) with false.
    change (has_key "username" (PTuple [PStr "is_active"; _])) with false.
    cbn iota. apply filter_username_fields. }
  split; [reflexivity |].
  split; [exact Hsel |].
  split; [rewrite Hsel; apply length_map |].
  split.
  - intros g. split.
    + intros [H | [H | H]].
      * destruct group_id as [g' |]; [| discriminate H].
        injection H as H. subst g'. reflexivity.
      * discriminate H.
      * apply in_map_iff in H. destruct H as [u [H _]]. discriminate H.
    + intros ->. left. reflexivity.
  - intros b. split.
    + intros [H | [H | H]].
      * discriminate H.
      * destruct is_active as [b' |]; [| discriminate H].
        injection H as H. subst b'. reflexivity.
      * apply in_map_iff in H. destruct H as [u [H _]]. discriminate H.
    + intros ->. right. left. reflexivity.
Qed.

(** ** [confirm]: the access-token check *)

Lemma confirm_run (srv : Server) (username tmp_password new_password : string)
  (log : list Request) :
  outcome (confirm srv username tmp_password new_password) log
  = match outcome (confirm_flow srv username tmp_password new_password) log
    with
    | Ok token_json => confirm_check token_json
    | Raise e => Raise e
    end.
Proof.
  unfold outcome, confirm. rewrite bind_M_run.
  destruct (confirm_flow srv username tmp_password new_password log)
    as [[token_json | e] log']; reflexivity.
Qed.

Lemma confirm_check_ok_iff (token_json : PyVal) :
  confirm_check token_json = Ok tt <-> carries_access_token token_json.
Proof.
  unfold confirm_check, confirm_access_token, carries_access_token.
  split.
  - destruct token_json as [| | | | | | | d]; try discriminate.
    cbn [getitem bind Result_Monad].
    destruct (dict_get "authentication" d) as [a |] eqn:Ha;
      [| cbn; discriminate].
    destruct a as [| | | | | | | auth]; try (cbn; discriminate).
    cbn [getitem].
    destruct (dict_get "access_token" auth) as [tok |] eqn:Ht;
      [| cbn; discriminate].
    destruct (truthy tok) eqn:Htr; [| cbn; discriminate].
    intros _. exists d, auth, tok. repeat split; assumption.
  - intros [d [auth [tok [-> [Ha [Ht Htr]]]]]].
    cbn [getitem bind Result_Monad]. rewrite Ha. cbn [getitem].
    rewrite Ht, Htr. reflexivity.
Qed.


(** C2.  The [try] block of [confirm] catches [KeyError] and [ValueError]
    only.  On a final reply whose authentication member is null (no access
    token present) the subscript raises [TypeError], which escapes: the
    error raised is not the one that carries the confirmation message.  The
    same happens when the null member comes back from /token/challenge. *)
Theorem confirm_null_authentication_escapes :
  outcome (confirm_flow (constant_service null_authentication_reply)
             "alice" "tmp" "new") []
    = Ok null_authentication_reply
  /\ ~ carries_access_token null_authentication_reply
  /\ outcome (confirm (constant_service null_authentication_reply)
                "alice" "tmp" "new") []
     = Raise TypeError
  /\ Raise TypeError <> @Raise unit (ValueError confirm_message)
  /\ outcome (confirm rechallenging_service "alice" "tmp" "new") []
     = Raise TypeError
  /\ map path
       (requests_made (confirm rechallenging_service "alice" "tmp" "new") [])
     = ["/token/create"; "/token/challenge"].
Proof.
  split; [reflexivity |].
  split.
  { intros [d [auth [tok [Hd [Ha _]]]]].
    injection Hd as Hd. subst d. discriminate Ha. }
  split; [reflexivity |].
  split; [discriminate |].
  split; reflexivity.
Qed.



(** ** [filter]: the Users returned *)

Lemma filter_user_spec (user_dict : PyVal) (u : User) :
  filter_user user_dict = Ok u -> partial_user_of user_dict u.
Proof.
  unfold filter_user, partial_user_of. cbn [bind Result_Monad ret].
  destruct (getitem user_dict "group_ids") as [g | x]; [| discriminate].
  destruct (getitem user_dict "username") as [n | x]; [| discriminate].
  destruct (getitem user_dict "preferred_username") as [p | x];
    [| discriminate].
  destruct (getitem user_dict "email") as [e | x]; [| discriminate].
  destruct (getitem user_dict "first_name") as [f | x]; [| discriminate].
  destruct (getitem user_dict "last_name") as [l | x]; [| discriminate].
  intros H. injection H as H. subst u.
  exists g, n, p, e, f, l. repeat split.
Qed.

Lemma in_dict_set {V : Type} (k k' : string) (v v' : V) (d : Dict V) :
  In (k, v) (dict_set k' v' d) -> (k, v) = (k', v') \/ In (k, v) d.
Proof.
  induction d as [| [k0 v0] d IH]; cbn [dict_set].
  - intros [H | []]. left. symmetry. exact H.
  - destruct (String.eqb k' k0).
    + intros [H | H]; [left; symmetry; exact H | right; right; exact H].
    + intros [H | H]; [right; left; exact H |].
      destruct (IH H) as [E | E]; [left; exact E | right; right; exact E].
Qed.

Lemma dict_keys_dict_set {V : Type} (k k' : string) (v' : V) (d : Dict V) :
  In k (dict_keys (dict_set k' v' d)) <-> k = k' \/ In k (dict_keys d).
Proof.
  unfold dict_keys. induction d as [| [k0 v0] d IH]; cbn [dict_set].
  - cbn. intuition congruence.
  - destruct (String.eqb k' k0) eqn:E.
    + apply String.eqb_eq in E. subst k0. cbn. intuition congruence.
    + cbn [map fst In]. rewrite IH. intuition congruence.
Qed.

Lemma filter_loop_spec (its : Dict PyVal) :
  forall acc users : Dict User,
    filter_loop its acc = Ok users ->
    (forall k u, In (k, u) users ->
       In (k, u) acc
       \/ exists user_dict, In (k, user_dict) its
                            /\ filter_user user_dict = Ok u)
    /\ (forall k, In k (dict_keys users)
                  <-> In k (dict_keys acc) \/ In k (dict_keys its)).
Proof.
  induction its as [| [k0 ud] rest IH]; intros acc users; cbn [filter_loop].
  - intros H. injection H as H. subst users. split.
    + intros k u Hin. left. exact Hin.
    + intros k. cbn. intuition.
  - cbn [bind Result_Monad].
    destruct (filter_user ud) as [u0 | e] eqn:Hu0; [| discriminate].
    intros H. destruct (IH _ _ H) as [Hval Hkey]. split.
    + intros k u Hin. destruct (Hval k u Hin) as [Hacc | [ud' [Hin' Hb]]].
      * destruct (in_dict_set _ _ _ _ _ Hacc) as [E | Hacc'].
        -- injection E as Ek Eu. subst k u. right. exists ud. split.
           ++ left. reflexivity.
           ++ exact Hu0.
        -- left. exact Hacc'.
      * right. exists ud'. split; [right; exact Hin' | exact Hb].
    + intros k. rewrite Hkey, dict_keys_dict_set. cbn. intuition.
Qed.

(** The User that [filter] returns for an entry carries its email, so it is
    not limited to group membership. *)
Lemma filter_users_carry_profile_fields :
  exists u : User,
    outcome (filter (constant_service filter_reply) None None None) []
      = Ok [("alice", u)]
    /\ populated email u
    /\ ~ group_membership_only u.
Proof.
  eexists. split; [reflexivity |]. split.
  - unfold populated. cbn. discriminate.
  - intros [_ [H _]]. apply H. unfold populated. cbn. discriminate.
Qed.

(** C7, as the code has it.  A [filter] that returns maps each key of the
    reply object to a User built from the entry under that key: group_ids,
    username, preferred_username, email, first_name and last_name are read
    from the entry; permissions, is_active and tmp_password are not
    populated. *)
Theorem filter_returns_partial_users :
  forall (srv : Server) (group_id : option string)
         (usernames : option (list string)) (is_active' : option bool)
         (log log' : list Request) (users : Dict User),
    filter srv group_id usernames is_active' log = (Ok users, log') ->
    exists reply : Dict PyVal,
      srv log (filter_request group_id usernames is_active')
        = Ok (PDict reply)
      /\ (forall k, In k (dict_keys users) <-> In k (dict_keys reply))
      /\ (forall k u, In (k, u) users ->
            (exists user_dict,
               In (k, user_dict) reply /\ partial_user_of user_dict u)
            /\ populated group_ids u /\ populated username u
            /\ populated preferred_username u /\ populated email u
            /\ populated first_name u /\ populated last_name u
            /\ permissions u = None /\ is_active u = None
            /\ tmp_password u = None).
Proof.
  intros srv group_id usernames is_active' log log' users.
  unfold filter. rewrite bind_M_run, call_to_json_run.
  destruct (srv log _) as [reply | e] eqn:Hsrv; [| discriminate].
  unfold lift. cbn [bind Result_Monad].
  destruct reply as [| | | | | | | d]; try discriminate.
  cbn [items]. intros H. injection H as H _.
  destruct (filter_loop_spec _ _ _ H) as [Hval Hkey].
  exists d. split; [reflexivity |]. split.
  - intros k. rewrite Hkey. cbn. intuition.
  - intros k u Hin. destruct (Hval k u Hin) as [[] | [ud [Hin' Hb]]].
    apply filter_user_spec in Hb.
    split; [exists ud; split; assumption |].
    destruct Hb as [g [n [p [e [f [l [_ [_ [_ [_ [_ [_ ->]]]]]]]]]]]].
    unfold populated. cbn. repeat split; discriminate.
Qed.

(** One user in the reply. *)
Lemma filter_returns_partial_users_witness :
  exists reply : Dict PyVal,
    constant_service filter_reply [] (filter_request None (Some ["alice"]) None)
      = Ok (PDict reply)
    /\ (forall k,
          In k (dict_keys
                  [("alice",
                    {| group_ids := Some (PList [PStr "admins"]);
                       username := Some (PStr "alice");
                       preferred_username := Some (PStr "ally");
                       email := Some (PStr "alice@example.org");
                       first_name := Some (PStr "Alice");
                       last_name := Some (PStr "Liddell");
                       tmp_password := None;
                       permissions := None;
                       is_active := None |})])
          <-> In k (dict_keys reply)).
Proof.
  destruct (filter_returns_partial_users
              (constant_service filter_reply) None (Some ["alice"]) None
              [] [filter_request None (Some ["alice"]) None]
              [("alice",
                {| group_ids := Some (PList [PStr "admins"]);
                   username := Some (PStr "alice");
                   preferred_username := Some (PStr "ally");
                   email := Some (PStr "alice@example.org");
                   first_name := Some (PStr "Alice");
                   last_name := Some (PStr "Liddell");
                   tmp_password := None;
                   permissions := None;
                   is_active := None |})]
              eq_refl) as [reply [Hsrv [Hkey _]]].
  exists reply. split; [exact Hsrv | exact Hkey].
Defined.

(** ** [create] then [get] *)

Lemma get_ok_inv (srv : Server) (name : string) (log log' : list Request)
  (u : User) :
  get srv name log = (Ok u, log') ->
  exists (user_json g n p e f l perms a : PyVal),
    srv log (get_request name) = Ok user_json
    /\ getitem user_json "group_ids" = Ok g
    /\ getitem user_json "username" = Ok n
    /\ getitem user_json "preferred_username" = Ok p
    /\ getitem user_json "email" = Ok e
    /\ getitem user_json "first_name" = Ok f
    /\ getitem user_json "last_name" = Ok l
    /\ getitem user_json "permissions" = Ok perms
    /\ getitem user_json "is_active" = Ok a
    /\ u = {| group_ids := Some g;
              username := Some n;
              preferred_username := Some p;
              email := Some e;
              first_name := Some f;
              last_name := Some l;
              tmp_password := None;
              permissions := Some perms;
              is_active := Some a |}.
Proof.
  unfold get. rewrite bind_M_run, call_to_json_run.
  destruct (srv log _) as [user_json | x] eqn:Hsrv; [| discriminate].
  unfold lift. cbn [bind Result_Monad ret].
  destruct (getitem user_json "group_ids") as [g | x] eqn:Hg;
    [| discriminate].
  destruct (getitem user_json "username") as [n | x] eqn:Hn;
    [| discriminate].
  destruct (getitem user_json "preferred_username") as [p | x] eqn:Hp;
    [| discriminate].
  destruct (getitem user_json "email") as [e | x] eqn:He; [| discriminate].
  destruct (getitem user_json "first_name") as [f | x] eqn:Hf;
    [| discriminate].
  destruct (getitem user_json "last_name") as [l | x] eqn:Hl;
    [| discriminate].
  destruct (getitem user_json "permissions") as [perms | x] eqn:Hperms;
    [| discriminate].
  destruct (getitem user_json "is_active") as [a | x] eqn:Ha;
    [| discriminate].
  intros H. injection H as Hu _. subst u.
  exists user_json, g, n, p, e, f, l, perms, a. repeat split; assumption.
Qed.

Lemma created_body_snoc (log : list Request) (r : Request) :
  path r = "/user/create" -> created_body (log ++ [r]) = body r.
Proof.
  intros Hp. unfold created_body. rewrite rev_unit. cbn [find].
  rewrite Hp. reflexivity.
Qed.

(** [create] hands back the e-mail address it was called with, [get] the one
    the service holds: against a service that stores addresses in lower
    case the two Users differ. *)
Lemma create_then_get_can_differ :
  exists created got : User,
    create lowercasing_service "Alice@Example.org" "ally" "Alice" "Liddell"
      None None None []
    = (Ok created,
       [create_request "Alice@Example.org" "ally" "Alice" "Liddell"
          None None None])
    /\ username created = Some (PStr "alice")
    /\ get lowercasing_service "alice"
         [create_request "Alice@Example.org" "ally" "Alice" "Liddell"
            None None None]
       = (Ok got,
          [create_request "Alice@Example.org" "ally" "Alice" "Liddell"
             None None None; get_request "alice"])
    /\ username got = username created
    /\ email got <> email created.
Proof.
  eexists. eexists.
  split; [reflexivity |]. split; [reflexivity |].
  split; [reflexivity |]. split; [reflexivity |].
  cbn. discriminate.
Qed.

(** C6, as the code has it.  Round trip.  Take a [create] that returns a
    User named [name], and a [get] of that name, issued next, that returns
    too.  [create] hands back the caller's values and [get] the service's,
    so the two agree when the service answers a GET /user/get asking for
    that name with the name and with the email, preferred_username,
    first_name and last_name that /user/create was sent: then the User from
    [get] has the same username, email, preferred_username, first_name and
    last_name as the User from [create]. *)
Theorem create_then_get_round_trip :
  forall (srv : Server)
         (email' preferred_username' first_name' last_name' : string)
         (username' : option string)
         (group_ids' permissions' : option (list string))
         (log log1 log2 : list Request) (created got : User)
         (name : string),
    create srv email' preferred_username' first_name' last_name'
      username' group_ids' permissions' log = (Ok created, log1) ->
    username created = Some (PStr name) ->
    get srv name log1 = (Ok got, log2) ->
    answers_get_from_created srv log1 name ->
    username got = username created
    /\ email got = email created
    /\ preferred_username got = preferred_username created
    /\ first_name got = first_name created
    /\ last_name got = last_name created.
Proof.
  intros srv email' preferred_username' first_name' last_name'
         username' group_ids' permissions' log log1 log2 created got name
         Hcreate Hname Hget Hsrv.
  destruct (Hsrv (get_request name) [("username", PStr name)]
              eq_refl eq_refl eq_refl)
    as [sent [reply [Hsent [Hreply [Hn Hecho]]]]].
  { cbn [dict_get]. rewrite String.eqb_refl. reflexivity. }
  apply create_ok_inv in Hcreate.
  destruct Hcreate as [Hlog [cj [cn [ct [_ [_ [_ Hc]]]]]]].
  apply get_ok_inv in Hget.
  destruct Hget as [gj [g [n [p [e [f [l [perms [a
    [Hgsrv [_ [Hgn [Hgp [Hge [Hgf [Hgl [_ [_ Hg]]]]]]]]]]]]]]]]]].
  rewrite Hreply in Hgsrv. injection Hgsrv as Hgsrv. subst gj.
  subst log1. rewrite created_body_snoc in Hsent by reflexivity.
  cbn [create_request http_endpoint body] in Hsent.
  injection Hsent as Hsent. subst sent.
  inversion Hecho as [| k1 r1 He1 Hecho1]; subst.
  inversion Hecho1 as [| k2 r2 He2 Hecho2]; subst.
  inversion Hecho2 as [| k3 r3 He3 Hecho3]; subst.
  inversion Hecho3 as [| k4 r4 He4 _]; subst.
  cbn in He1, He2, He3, He4.
  rewrite Hge in He1. rewrite Hgp in He2.
  rewrite Hgf in He3. rewrite Hgl in He4.
  rewrite Hgn in Hn.
  injection He1 as ->. injection He2 as ->.
  injection He3 as ->. injection He4 as ->. injection Hn as ->.
  cbn. cbn in Hname. rewrite Hname. repeat split.
Qed.

Lemma store_service_answers (created : Request) :
  path created = "/user/create" ->
  (forall k, In k ["email"; "preferred_username"; "first_name";
                   "last_name"; "group_ids"; "permissions"] ->
             exists b v, body created = Some b /\ getitem b k = Ok v) ->
  answers_get_from_created store_service [created] "u-1".
Proof.
  intros Hp Hb r q Hm Hpath Hf Hq.
  assert (Hcb : created_body [created] = body created).
  { apply (created_body_snoc [] created Hp). }
  destruct (Hb "email") as [b [e [Hbody He]]]; [cbn; tauto |].
  destruct (Hb "preferred_username") as [b1 [p [Hb1 Hpu]]]; [cbn; tauto |].
  destruct (Hb "first_name") as [b2 [f [Hb2 Hfn]]]; [cbn; tauto |].
  destruct (Hb "last_name") as [b3 [l [Hb3 Hln]]]; [cbn; tauto |].
  destruct (Hb "group_ids") as [b4 [g [Hb4 Hg]]]; [cbn; tauto |].
  destruct (Hb "permissions") as [b5 [perms [Hb5 Hperms]]]; [cbn; tauto |].
  rewrite Hbody in Hb1, Hb2, Hb3, Hb4, Hb5.
  injection Hb1 as <-. injection Hb2 as <-. injection Hb3 as <-.
  injection Hb4 as <-. injection Hb5 as <-.
  exists b. eexists. split; [rewrite Hcb; exact Hbody |].
  split.
  - unfold store_service. rewrite Hpath, Hf, Hcb, Hbody.
    cbn [String.eqb Ascii.eqb Bool.eqb getitem]. rewrite Hq.
    cbn [String.eqb Ascii.eqb Bool.eqb bind Result_Monad].
    rewrite He, Hpu, Hfn, Hln, Hg, Hperms. reflexivity.
  - split; [reflexivity |].
    cbn [getitem dict_get String.eqb Ascii.eqb Bool.eqb].
    repeat constructor; symmetry; assumption.
Qed.

(** Against the service that remembers what was created. *)
Lemma create_then_get_round_trip_witness :
  exists created got : User,
    create store_service "a@example.org" "ally" "Al" "Ly"
      None None None [] = (Ok created, [create_request "a@example.org" "ally"
                                          "Al" "Ly" None None None])
    /\ get store_service "u-1"
         [create_request "a@example.org" "ally" "Al" "Ly" None None None]
       = (Ok got, [create_request "a@example.org" "ally" "Al" "Ly"
                     None None None; get_request "u-1"])
    /\ username got = username created
    /\ email got = email created
    /\ preferred_username got = preferred_username created
    /\ first_name got = first_name created
    /\ last_name got = last_name created.
Proof.
  eexists. eexists.
  split; [reflexivity |]. split; [reflexivity |].
  apply (create_then_get_round_trip store_service
           "a@example.org" "ally" "Al" "Ly" None None None
           [] _ _ _ _ "u-1" eq_refl eq_refl eq_refl).
  apply store_service_answers; [reflexivity |].
  intros k Hk. cbn in Hk.
  repeat (destruct Hk as [<- | Hk]; [eexists; eexists; split; reflexivity |]).
  destruct Hk.
Defined.

(** ** One request per call *)

Lemma lift_issues_nothing {A : Type} (r : Result A) : issues_nothing (lift r).
Proof. intros log. reflexivity. Qed.

Lemma raise_issues_nothing {A : Type} (e : Exn) :
  issues_nothing (@raise A e).
Proof. intros log. reflexivity. Qed.

Lemma bind_issues_nothing {A B : Type} (c : M A) (k : A -> M B) :
  issues_nothing c -> (forall a, issues_nothing (k a)) ->
  issues_nothing (bind c k).
Proof.
  intros Hc Hk log. rewrite bind_M_run. specialize (Hc log).
  destruct (c log) as [[a | e] log1]; cbn [snd] in Hc; subst log1.
  - apply Hk.
  - reflexivity.
Qed.

Lemma call_then_nothing {A : Type} (srv : Server) (req : Request)
  (k : PyVal -> M A) (log : list Request) :
  (forall v, issues_nothing (k v)) ->
  requests_made (bind (call_to_json srv req) k) log = [req].
Proof.
  intros Hk. unfold requests_made. rewrite bind_M_run, call_to_json_run.
  destruct (srv log req) as [v | e]; [rewrite Hk |]; apply skipn_length_app.
Qed.

Lemma call_to_response_requests (srv : Server) (req : Request)
  (log : list Request) :
  requests_made (call_to_response srv req) log = [req].
Proof. unfold requests_made, call_to_response. apply skipn_length_app. Qed.

Ltac issues_nothing_tac :=
  repeat first
    [ apply lift_issues_nothing
    | apply raise_issues_nothing
    | apply bind_issues_nothing; [| intros ?]
    | match goal with
      | |- issues_nothing (if ?b then _ else _) => destruct b
      end ].

Lemma get_requests (srv : Server) (name : string) (log : list Request) :
  requests_made (get srv name) log = [get_request name].
Proof. apply call_then_nothing. intros v. issues_nothing_tac. Qed.

Lemma create_requests (srv : Server)
  (e p f l : string) (u : option string) (g perms : option (list string))
  (log : list Request) :
  requests_made (create srv e p f l u g perms) log
  = [create_request e p f l u g perms].
Proof. apply call_then_nothing. intros v. issues_nothing_tac. Qed.

Lemma filter_requests (srv : Server) (g : option string)
  (us : option (list string)) (a : option bool) (log : list Request) :
  requests_made (filter srv g us a) log = [filter_request g us a].
Proof. apply call_then_nothing. intros v. issues_nothing_tac. Qed.

Lemma create_token_requests (srv : Server) (Token : Type)
  (Token_init : Dict PyVal -> Result Token) (u p : string)
  (log : list Request) :
  requests_made (create_token srv Token_init u p) log
  = [token_create_request u p].
Proof. apply call_then_nothing. intros v. issues_nothing_tac. Qed.

(** X1.  Whatever the service replies, and also when the method then
    raises, each method other than [confirm] issues exactly one request, to
    its own endpoint. *)
Theorem one_request_per_call :
  forall (srv : Server) (Token : Type)
         (Token_init : Dict PyVal -> Result Token) (log : list Request)
         (name s1 s2 s3 s4 : string) (o1 o2 o3 o4 : option string)
         (l1 l2 : option (list string)) (b : option bool),
    map endpoint_of (requests_made (get srv name) log)
      = [(GET, "/user/get")]
    /\ map endpoint_of (requests_made (ClientUser.delete srv name) log)
       = [(DELETE, "/user/delete")]
    /\ map endpoint_of
         (requests_made (create srv s1 s2 s3 s4 o1 l1 l2) log)
       = [(POST, "/user/create")]
    /\ map endpoint_of (requests_made (ClientUser.enable srv name) log)
       = [(POST, "/user/enable")]
    /\ map endpoint_of (requests_made (ClientUser.disable srv name) log)
       = [(POST, "/user/disable")]
    /\ map endpoint_of
         (requests_made (update srv name o1 o2 o3 o4 l1 l2) log)
       = [(PUT, "/user/update")]
    /\ map endpoint_of (requests_made (filter srv o1 l1 b) log)
       = [(GET, "/user/filter")]
    /\ map endpoint_of
         (requests_made (ClientUser.validate_token srv s1) log)
       = [(POST, "/token/validate")]
    /\ map endpoint_of
         (requests_made (create_token srv Token_init s1 s2) log)
       = [(POST, "/token/create")]
    /\ map endpoint_of
         (requests_made
            (ClientUser.exchange_auth_code srv Token_init s1 o1) log)
       = [(POST, "/token/create")]
    /\ map endpoint_of
         (requests_made (ClientUser.refresh_token srv Token_init s1) log)
       = [(POST, "/token/refresh")]
    /\ map endpoint_of (requests_made (ClientUser.permissions srv name) log)
       = [(GET, "/permission/get")].
Proof.
  intros.
  repeat match goal with
         | |- _ /\ _ => split
         end.
  - rewrite get_requests. reflexivity.
  - unfold ClientUser.delete. rewrite call_to_response_requests. reflexivity.
  - rewrite create_requests. reflexivity.
  - unfold ClientUser.enable. rewrite call_to_response_requests. reflexivity.
  - unfold ClientUser.disable. rewrite call_to_response_requests.
    reflexivity.
  - rewrite update_run. reflexivity.
  - rewrite filter_requests. reflexivity.
  - unfold ClientUser.validate_token. rewrite call_then_nothing;
      [reflexivity | intros v; issues_nothing_tac].
  - rewrite create_token_requests. reflexivity.
  - unfold ClientUser.exchange_auth_code. rewrite call_then_nothing;
      [reflexivity | intros v; issues_nothing_tac].
  - unfold ClientUser.refresh_token. rewrite call_then_nothing;
      [reflexivity | intros v; issues_nothing_tac].
  - unfold ClientUser.permissions. rewrite call_then_nothing;
      [reflexivity | intros v; issues_nothing_tac].
Qed.

(** ** [confirm]: one request or two *)

Lemma confirm_flow_run (srv : Server) (u tmp new : string)
  (log : list Request) :
  confirm_flow srv u tmp new log
  = match srv log (token_create_request u tmp) with
    | Raise e => (Raise e, log ++ [token_create_request u tmp])
    | Ok token_json =>
        match getitem token_json "is_challenge" with
        | Raise e => (Raise e, log ++ [token_create_request u tmp])
        | Ok c =>
            if is_True c then
              match (ch <- getitem token_json "challenge" ;;
                     cn <- getitem ch "challenge_name" ;;
                     cs <- getitem ch "session" ;;
                     ret (cn, cs)) with
              | Raise e => (Raise e, log ++ [token_create_request u tmp])
              | Ok (cn, cs) =>
                  (srv (log ++ [token_create_request u tmp])
                     (token_challenge_request cn cs u new),
                   (log ++ [token_create_request u tmp])
                   ++ [token_challenge_request cn cs u new])
              end
            else (Ok token_json, log ++ [token_create_request u tmp])
        end
    end.
Proof.
  unfold confirm_flow. rewrite bind_M_run, call_to_json_run.
  destruct (srv log _) as [token_json | e]; [| reflexivity].
  rewrite bind_M_run. unfold lift at 1.
  destruct (getitem token_json "is_challenge") as [c | e]; [| reflexivity].
  destruct (is_True c); [| reflexivity].
  rewrite bind_M_run. unfold lift at 1. cbn [bind Result_Monad].
  destruct (getitem token_json "challenge") as [ch | e]; [| reflexivity].
  rewrite bind_M_run. unfold lift at 1.
  destruct (getitem ch "challenge_name") as [cn | e]; [| reflexivity].
  rewrite bind_M_run. unfold lift at 1.
  rewrite bind_M_run. unfold lift at 1.
  destruct (getitem ch "session") as [cs | e]; reflexivity.
Qed.

Lemma confirm_log (srv : Server) (u tmp new : string) (log : list Request) :
  snd (confirm srv u tmp new log) = snd (confirm_flow srv u tmp new log).
Proof.
  unfold confirm. rewrite bind_M_run.
  destruct (confirm_flow srv u tmp new log) as [[v | e] log1]; reflexivity.
Qed.

Lemma confirm_requests (srv : Server) (u tmp new : string)
  (log : list Request) :
  requests_made (confirm srv u tmp new) log = [token_create_request u tmp]
  \/ exists cn cs : PyVal,
       requests_made (confirm srv u tmp new) log
       = [token_create_request u tmp; token_challenge_request cn cs u new].
Proof.
  unfold requests_made. rewrite confirm_log, confirm_flow_run.
  destruct (srv log _) as [token_json | e];
    [| left; apply skipn_length_app].
  destruct (getitem token_json "is_challenge") as [c | e];
    [| left; apply skipn_length_app].
  destruct (is_True c); [| left; apply skipn_length_app].
  destruct (_ : Result (PyVal * PyVal)) as [[cn cs] | e];
    [| left; apply skipn_length_app].
  right. exists cn, cs. cbn [snd]. rewrite <- app_assoc.
  apply skipn_length_app.
Qed.

(** X2.  [confirm] issues one request or two and never more.  The first is
    always POST /token/create with the username and the temporary password;
    a second one is always POST /token/challenge, its challenge response
    carrying the username and the new password. *)
Theorem confirm_one_or_two_requests :
  forall (srv : Server) (u tmp new : string) (log : list Request),
    exists (rest : list Request),
      requests_made (confirm srv u tmp new) log
        = http_endpoint "/token/create" POST None
            (Some (PDict [("username", PStr u); ("password", PStr tmp)]))
          :: rest
      /\ (rest = []
          \/ exists (cn cs : PyVal),
               rest = [http_endpoint "/token/challenge" POST None
                         (Some (PDict [
                            ("challenge_name", cn);
                            ("challenge_session", cs);
                            ("challenge_response",
                               PDict [("USERNAME", PStr u);
                                      ("NEW_PASSWORD", PStr new)])]))]).
Proof.
  intros srv u tmp new log.
  destruct (confirm_requests srv u tmp new log) as [H | [cn [cs H]]];
    rewrite H.
  - exists []. split; [reflexivity | left; reflexivity].
  - eexists. split; [reflexivity |]. right. exists cn, cs. reflexivity.
Qed.

(** ** Where the payload goes *)

(** X3.  In every request any method issues, [confirm] included, a GET
    carries query fields and no body, and every other request carries a body
    and no query fields. *)
Theorem payload_placement :
  forall (srv : Server) (Token : Type)
         (Token_init : Dict PyVal -> Result Token) (log : list Request)
         (name s1 s2 s3 s4 : string) (o1 o2 o3 o4 : option string)
         (l1 l2 : option (list string)) (b : option bool),
    Forall payload_well_placed (requests_made (get srv name) log)
    /\ Forall payload_well_placed
         (requests_made (ClientUser.delete srv name) log)
    /\ Forall payload_well_placed
         (requests_made (create srv s1 s2 s3 s4 o1 l1 l2) log)
    /\ Forall payload_well_placed
         (requests_made (ClientUser.enable srv name) log)
    /\ Forall payload_well_placed
         (requests_made (ClientUser.disable srv name) log)
    /\ Forall payload_well_placed
         (requests_made (update srv name o1 o2 o3 o4 l1 l2) log)
    /\ Forall payload_well_placed (requests_made (filter srv o1 l1 b) log)
    /\ Forall payload_well_placed
         (requests_made (confirm srv s1 s2 s3) log)
    /\ Forall payload_well_placed
         (requests_made (ClientUser.validate_token srv s1) log)
    /\ Forall payload_well_placed
         (requests_made (create_token srv Token_init s1 s2) log)
    /\ Forall payload_well_placed
         (requests_made
            (ClientUser.exchange_auth_code srv Token_init s1 o1) log)
    /\ Forall payload_well_placed
         (requests_made (ClientUser.refresh_token srv Token_init s1) log)
    /\ Forall payload_well_placed
         (requests_made (ClientUser.permissions srv name) log).
Proof.
  intros.
  repeat match goal with
         | |- _ /\ _ => split
         end.
  - rewrite get_requests. repeat constructor. discriminate.
  - unfold ClientUser.delete. rewrite call_to_response_requests.
    repeat constructor. discriminate.
  - rewrite create_requests. repeat constructor. discriminate.
  - unfold ClientUser.enable. rewrite call_to_response_requests.
    repeat constructor. discriminate.
  - unfold ClientUser.disable. rewrite call_to_response_requests.
    repeat constructor. discriminate.
  - rewrite update_run. repeat constructor. discriminate.
  - rewrite filter_requests. repeat constructor. discriminate.
  - destruct (confirm_requests srv s1 s2 s3 log) as [H | [cn [cs H]]];
      rewrite H; repeat constructor; discriminate.
  - unfold ClientUser.validate_token. rewrite call_then_nothing;
      [repeat constructor; discriminate | intros v; issues_nothing_tac].
  - rewrite create_token_requests. repeat constructor. discriminate.
  - unfold ClientUser.exchange_auth_code. rewrite call_then_nothing;
      [repeat constructor; discriminate | intros v; issues_nothing_tac].
  - unfold ClientUser.refresh_token. rewrite call_then_nothing;
      [repeat constructor; discriminate | intros v; issues_nothing_tac].
  - unfold ClientUser.permissions. rewrite call_then_nothing;
      [repeat constructor; discriminate | intros v; issues_nothing_tac].
Qed.

(** ** Transport failures *)

Lemma single_call_raises {A : Type} (srv : Server) (req : Request)
  (k : PyVal -> M A) (log : list Request) (e : Exn) :
  (forall v, issues_nothing (k v)) ->
  transport_raises srv (bind (call_to_json srv req) k) log e ->
  outcome (bind (call_to_json srv req) k) log = Raise e.
Proof.
  intros Hk [i [r [Hnth Hsrv]]].
  rewrite (call_then_nothing srv req k log Hk) in Hnth, Hsrv.
  destruct i as [| i]; [| destruct i; discriminate Hnth].
  injection Hnth as <-. cbn [firstn] in Hsrv. rewrite app_nil_r in Hsrv.
  unfold outcome. rewrite bind_M_run, call_to_json_run, Hsrv. reflexivity.
Qed.

Lemma single_response_raises (srv : Server) (req : Request)
  (log : list Request) (e : Exn) :
  transport_raises srv (call_to_response srv req) log e ->
  outcome (call_to_response srv req) log = Raise e.
Proof.
  intros [i [r [Hnth Hsrv]]].
  rewrite call_to_response_requests in Hnth, Hsrv.
  destruct i as [| i]; [| destruct i; discriminate Hnth].
  injection Hnth as <-. cbn [firstn] in Hsrv. rewrite app_nil_r in Hsrv.
  unfold outcome, call_to_response. rewrite Hsrv. reflexivity.
Qed.

Lemma confirm_transport_raises (srv : Server) (u tmp new : string)
  (log : list Request) (e : Exn) :
  transport_raises srv (confirm srv u tmp new) log e ->
  outcome (confirm srv u tmp new) log = Raise e.
Proof.
  intros [i [r [Hnth Hsrv]]].
  rewrite confirm_run. unfold outcome.
  unfold requests_made in Hnth, Hsrv. rewrite confirm_log in Hnth, Hsrv.
  rewrite confirm_flow_run in *.
  destruct (srv log (token_create_request u tmp)) as [token_json | e0]
    eqn:H1.
  - destruct (getitem token_json "is_challenge") as [c | e1].
    + destruct (is_True c).
      * destruct (_ : Result (PyVal * PyVal)) as [[cn cs] | e2].
        -- cbn [snd fst] in *.
           rewrite <- app_assoc, skipn_length_app in Hnth, Hsrv.
           cbn [app] in Hnth, Hsrv.
           destruct i as [| [| i]].
           ++ injection Hnth as <-. cbn [firstn] in Hsrv.
              rewrite app_nil_r in Hsrv. congruence.
           ++ injection Hnth as <-. cbn [firstn] in Hsrv.
              rewrite Hsrv. reflexivity.
           ++ destruct i; discriminate Hnth.
        -- cbn [snd] in *. rewrite skipn_length_app in Hnth, Hsrv.
           destruct i as [| i]; [| destruct i; discriminate Hnth].
           injection Hnth as <-. cbn [firstn] in Hsrv.
           rewrite app_nil_r in Hsrv. congruence.
      * cbn [snd] in *. rewrite skipn_length_app in Hnth, Hsrv.
        destruct i as [| i]; [| destruct i; discriminate Hnth].
        injection Hnth as <-. cbn [firstn] in Hsrv.
        rewrite app_nil_r in Hsrv. congruence.
    + cbn [snd] in *. rewrite skipn_length_app in Hnth, Hsrv.
      destruct i as [| i]; [| destruct i; discriminate Hnth].
      injection Hnth as <-. cbn [firstn] in Hsrv.
      rewrite app_nil_r in Hsrv. congruence.
  - cbn [snd fst] in *. rewrite skipn_length_app in Hnth, Hsrv.
    destruct i as [| i]; [| destruct i; discriminate Hnth].
    injection Hnth as <-. cbn [firstn] in Hsrv.
    rewrite app_nil_r in Hsrv. congruence.
Qed.

(** X4.  An error the transport raises for any request a method issues,
    the second request of [confirm] included, is raised unchanged by that
    method: none of them catches or rewraps it. *)
Theorem transport_error_propagates :
  forall (srv : Server) (Token : Type)
         (Token_init : Dict PyVal -> Result Token) (log : list Request)
         (e : Exn)
         (name s1 s2 s3 s4 : string) (o1 o2 o3 o4 : option string)
         (l1 l2 : option (list string)) (b : option bool),
    (transport_raises srv (get srv name) log e ->
     outcome (get srv name) log = Raise e)
    /\ (transport_raises srv (ClientUser.delete srv name) log e ->
        outcome (ClientUser.delete srv name) log = Raise e)
    /\ (transport_raises srv (create srv s1 s2 s3 s4 o1 l1 l2) log e ->
        outcome (create srv s1 s2 s3 s4 o1 l1 l2) log = Raise e)
    /\ (transport_raises srv (ClientUser.enable srv name) log e ->
        outcome (ClientUser.enable srv name) log = Raise e)
    /\ (transport_raises srv (ClientUser.disable srv name) log e ->
        outcome (ClientUser.disable srv name) log = Raise e)
    /\ (transport_raises srv (update srv name o1 o2 o3 o4 l1 l2) log e ->
        outcome (update srv name o1 o2 o3 o4 l1 l2) log = Raise e)
    /\ (transport_raises srv (filter srv o1 l1 b) log e ->
        outcome (filter srv o1 l1 b) log = Raise e)
    /\ (transport_raises srv (confirm srv s1 s2 s3) log e ->
        outcome (confirm srv s1 s2 s3) log = Raise e)
    /\ (transport_raises srv (ClientUser.validate_token srv s1) log e ->
        outcome (ClientUser.validate_token srv s1) log = Raise e)
    /\ (transport_raises srv (create_token srv Token_init s1 s2) log e ->
        outcome (create_token srv Token_init s1 s2) log = Raise e)
    /\ (transport_raises srv
          (ClientUser.exchange_auth_code srv Token_init s1 o1) log e ->
        outcome (ClientUser.exchange_auth_code srv Token_init s1 o1) log
        = Raise e)
    /\ (transport_raises srv
          (ClientUser.refresh_token srv Token_init s1) log e ->
        outcome (ClientUser.refresh_token srv Token_init s1) log = Raise e)
    /\ (transport_raises srv (ClientUser.permissions srv name) log e ->
        outcome (ClientUser.permissions srv name) log = Raise e).
Proof.
  intros srv Token Token_init log e name s1 s2 s3 s4 o1 o2 o3 o4 l1 l2 b.
  repeat match goal with
         | |- _ /\ _ => split
         end.
  - apply single_call_raises. intros v. issues_nothing_tac.
  - apply single_response_raises.
  - apply single_call_raises. intros v. issues_nothing_tac.
  - apply single_response_raises.
  - apply single_response_raises.
  - apply single_response_raises.
  - apply single_call_raises. intros v. issues_nothing_tac.
  - apply confirm_transport_raises.
  - apply single_call_raises. intros v. issues_nothing_tac.
  - apply single_call_raises. intros v. issues_nothing_tac.
  - apply single_call_raises. intros v. issues_nothing_tac.
  - apply single_call_raises. intros v. issues_nothing_tac.
  - apply single_call_raises. intros v. issues_nothing_tac.
Qed.

(** A service that cannot be reached, and one that drops the connection on
    the request to /token/challenge. *)
Lemma transport_error_propagates_witness :
  outcome (get unreachable_service "alice") []
    = Raise (TransportError "connection refused")
  /\ outcome (confirm dropping_service "alice" "tmp" "new") []
     = Raise (TransportError "connection reset").
Proof.
  split.
  - apply (proj1 (transport_error_propagates unreachable_service _ bag_token
                    [] (TransportError "connection refused")
                    "alice" "alice" "tmp" "new" "x" None None None None
                    None None None)).
    exists 0%nat, (get_request "alice"). split; reflexivity.
  - apply (proj1 (proj2 (proj2 (proj2 (proj2 (proj2 (proj2 (proj2
             (transport_error_propagates dropping_service _ bag_token
                [] (TransportError "connection reset")
                "alice" "alice" "tmp" "new" "x" None None None None
                None None None))))))))).
    exists 1%nat,
      (token_challenge_request (PStr "NEW_PASSWORD_REQUIRED")
         (PStr "session-1") "alice" "new").
    split; reflexivity.
Defined.

(** ** [confirm]: answering the challenge *)

(** X5.  When the first reply signals a challenge and carries its name and
    session, [confirm] issues exactly two requests, the second one handing
    that name and session back with the username and the new password; its
    outcome is then decided by the reply to the second request alone, the
    first reply's authentication member playing no part. *)
Theorem confirm_answers_challenge :
  forall (srv : Server) (u tmp new : string) (log : list Request)
         (d c : Dict PyVal) (cn cs : PyVal),
    srv log (token_create_request u tmp) = Ok (PDict d) ->
    dict_get "is_challenge" d = Some (PBool true) ->
    dict_get "challenge" d = Some (PDict c) ->
    dict_get "challenge_name" c = Some cn ->
    dict_get "session" c = Some cs ->
    requests_made (confirm srv u tmp new) log
      = [token_create_request u tmp; token_challenge_request cn cs u new]
    /\ outcome (confirm srv u tmp new) log
       = match srv (log ++ [token_create_request u tmp])
                 (token_challenge_request cn cs u new) with
         | Ok final => confirm_check final
         | Raise e => Raise e
         end.
Proof.
  intros srv u tmp new log d c cn cs Hsrv Hch Hc Hcn Hcs.
  assert (Hflow :
    confirm_flow srv u tmp new log
    = (srv (log ++ [token_create_request u tmp])
         (token_challenge_request cn cs u new),
       (log ++ [token_create_request u tmp])
       ++ [token_challenge_request cn cs u new])).
  { rewrite confirm_flow_run, Hsrv.
    rewrite (getitem_dict _ _ _ Hch). cbn [is_True].
    rewrite (getitem_dict _ _ _ Hc). cbn [bind Result_Monad].
    rewrite (getitem_dict _ _ _ Hcn), (getitem_dict _ _ _ Hcs).
    reflexivity. }
  split.
  - unfold requests_made. rewrite confirm_log, Hflow. cbn [snd].
    rewrite <- app_assoc. apply skipn_length_app.
  - rewrite confirm_run. unfold outcome. rewrite Hflow. reflexivity.
Qed.

(** The service that challenges and then issues tokens. *)
Lemma confirm_answers_challenge_witness :
  requests_made (confirm challenging_service "alice" "tmp" "new") []
  = [token_create_request "alice" "tmp";
     token_challenge_request (PStr "NEW_PASSWORD_REQUIRED")
       (PStr "session-1") "alice" "new"].
Proof.
  apply (confirm_answers_challenge challenging_service "alice" "tmp" "new" []
           [("is_challenge", PBool true);
            ("challenge",
               PDict [("challenge_name", PStr "NEW_PASSWORD_REQUIRED");
                      ("session", PStr "session-1")]);
            ("authentication", PNone)]
           [("challenge_name", PStr "NEW_PASSWORD_REQUIRED");
            ("session", PStr "session-1")]
           (PStr "NEW_PASSWORD_REQUIRED") (PStr "session-1")
           eq_refl eq_refl eq_refl eq_refl eq_refl).
Defined.

(** X6.  When the first reply signals a challenge but lacks the challenge
    member, or the challenge object lacks its name or its session,
    [confirm] raises [KeyError] and nothing is sent to /token/challenge. *)
Theorem confirm_challenge_details_missing :
  forall (srv : Server) (u tmp new : string) (log : list Request)
         (d : Dict PyVal),
    srv log (token_create_request u tmp) = Ok (PDict d) ->
    dict_get "is_challenge" d = Some (PBool true) ->
    (dict_get "challenge" d = None
     \/ exists c : Dict PyVal,
          dict_get "challenge" d = Some (PDict c)
          /\ (dict_get "challenge_name" c = None
              \/ dict_get "session" c = None)) ->
    (exists k : string,
       outcome (confirm srv u tmp new) log = Raise (KeyError k)
       /\ In k ["challenge"; "challenge_name"; "session"])
    /\ requests_made (confirm srv u tmp new) log
       = [token_create_request u tmp].
Proof.
  intros srv u tmp new log d Hsrv Hch Hmiss.
  assert (Hflow : exists k,
    confirm_flow srv u tmp new log
      = (Raise (KeyError k), log ++ [token_create_request u tmp])
    /\ In k ["challenge"; "challenge_name"; "session"]).
  { rewrite confirm_flow_run, Hsrv.
    rewrite (getitem_dict _ _ _ Hch). cbn [is_True].
    destruct Hmiss as [Hc | [c [Hc [Hcn | Hcs]]]].
    - exists "challenge". unfold getitem at 1. rewrite Hc.
      split; [reflexivity | cbn; tauto].
    - exists "challenge_name". rewrite (getitem_dict _ _ _ Hc).
      cbn [bind Result_Monad]. unfold getitem at 1. rewrite Hcn.
      split; [reflexivity | cbn; tauto].
    - rewrite (getitem_dict _ _ _ Hc). cbn [bind Result_Monad].
      unfold getitem. destruct (dict_get "challenge_name" c).
      + exists "session". rewrite Hcs. split; [reflexivity | cbn; tauto].
      + exists "challenge_name". split; [reflexivity | cbn; tauto]. }
  destruct Hflow as [k [Hflow Hk]]. split.
  - exists k. split; [| exact Hk].
    rewrite confirm_run. unfold outcome. rewrite Hflow. reflexivity.
  - unfold requests_made. rewrite confirm_log, Hflow.
    apply skipn_length_app.
Qed.

(** A challenge reply with no challenge member. *)
Lemma confirm_challenge_details_missing_witness :
  requests_made
    (confirm (constant_service (PDict [("is_challenge", PBool true)]))
       "alice" "tmp" "new") []
  = [token_create_request "alice" "tmp"].
Proof.
  apply (confirm_challenge_details_missing
           (constant_service (PDict [("is_challenge", PBool true)]))
           "alice" "tmp" "new" [] [("is_challenge", PBool true)]
           eq_refl eq_refl).
  left. reflexivity.
Defined.

(** ** Methods that return nothing *)



(** ** Methods that return one member of the reply *)



(** ** Methods that return a Token *)





(** ** [update]: what the body holds *)

(** X11.  In the body [update] sends, looking a key up gives the argument
    when one was given (an empty string or an empty list included: they are
    not null) and nothing when it was None; no entry of the body is null. *)
Theorem update_body_lookup :
  forall (srv : Server) (log : list Request) (name : string)
         (o1 o2 o3 o4 : option string) (l1 l2 : option (list string)),
    exists (req : Request) (d : Dict PyVal),
      requests_made (update srv name o1 o2 o3 o4 l1 l2) log = [req]
      /\ body req = Some (PDict d)
      /\ dict_get "username" d = Some (PStr name)
      /\ dict_get "email" d = option_map PStr o1
      /\ dict_get "preferred_username" d = option_map PStr o2
      /\ dict_get "first_name" d = option_map PStr o3
      /\ dict_get "last_name" d = option_map PStr o4
      /\ dict_get "group_ids" d = option_map of_str_list l1
      /\ dict_get "permissions" d = option_map of_str_list l2
      /\ Forall (fun kv => snd kv <> PNone) d
      /\ dict_get "group_ids" (update_body name o1 o2 o3 o4 (Some []) l2)
         = Some (PList []).
Proof.
  intros srv log name o1 o2 o3 o4 l1 l2.
  eexists. eexists. split; [apply update_run |].
  cbn [body http_endpoint]. split; [reflexivity |].
  destruct o1, o2, o3, o4, l1, l2; cbn;
    repeat split; repeat constructor; discriminate.
Qed.

(** ** [filter]: what the request tells *)

Lemma of_opt_str_inj (a b : option string) :
  of_opt_str a = of_opt_str b -> a = b.
Proof. destruct a, b; cbn; congruence. Qed.

Lemma of_opt_bool_inj (a b : option bool) :
  of_opt_bool a = of_opt_bool b -> a = b.
Proof. destruct a, b; cbn; congruence. Qed.

Lemma username_fields_inj (l l' : list string) :
  map (fun u => PTuple [PStr "username"; PStr u]) l
  = map (fun u => PTuple [PStr "username"; PStr u]) l' ->
  l = l'.
Proof.
  revert l'. induction l as [| u l IH]; intros [| u' l']; cbn;
    try discriminate; [reflexivity |].
  intros H. injection H as Hu Hl. f_equal; [exact Hu | apply IH; exact Hl].
Qed.

(** X12.  The request [filter] sends determines its arguments, except that
    usernames left out and an empty list of usernames cannot be told apart:
    both send no username field, so an empty list does not mean no user. *)
Theorem filter_request_determines_arguments :
  forall (g g' : option string) (us us' : option (list string))
         (a a' : option bool),
    (filter_request g us a = filter_request g' us' a'
     <-> g = g' /\ a = a'
         /\ match us with Some l => l | None => [] end
            = match us' with Some l => l | None => [] end)
    /\ (forall (srv : Server) (log : list Request),
          filter srv g None a log = filter srv g (Some []) a log).
Proof.
  intros g g' us us' a a'. split; [| reflexivity].
  rewrite <- !usernames_or_empty_spec.
  unfold filter_request, filter_fields, http_endpoint. split.
  - intros H. injection H as Hg Ha Hus.
    apply of_opt_str_inj in Hg. apply of_opt_bool_inj in Ha.
    apply username_fields_inj in Hus. repeat split; assumption.
  - intros [-> [-> ->]]. reflexivity.
Qed.

(** ** [filter]: the result as a dictionary *)

Lemma dict_set_fresh {V : Type} (k : string) (v : V) (d : Dict V) :
  ~ In k (dict_keys d) -> dict_set k v d = d ++ [(k, v)].
Proof.
  unfold dict_keys. induction d as [| [k0 v0] d IH]; cbn; [reflexivity |].
  intros Hn. destruct (String.eqb k k0) eqn:E.
  - apply String.eqb_eq in E. exfalso. apply Hn. left. symmetry. exact E.
  - f_equal. apply IH. intros Hin. apply Hn. right. exact Hin.
Qed.

Lemma filter_loop_fresh (its : Dict PyVal) :
  forall acc users : Dict User,
    NoDup (dict_keys acc ++ dict_keys its) ->
    filter_loop its acc = Ok users ->
    exists new : Dict User, users = acc ++ new /\ Forall2 entry_built its new.
Proof.
  induction its as [| [k ud] rest IH]; intros acc users Hnd;
    cbn [filter_loop].
  - intros H. injection H as <-. exists []. split.
    + symmetry. apply app_nil_r.
    + constructor.
  - cbn [bind Result_Monad].
    destruct (filter_user ud) as [u0 | e] eqn:Hu0; [| discriminate].
    intros H. cbn [dict_keys map fst] in Hnd.
    assert (Hfresh : ~ In k (dict_keys acc)).
    { intros Hin. apply NoDup_remove_2 in Hnd. apply Hnd.
      apply in_or_app. left. exact Hin. }
    rewrite (dict_set_fresh _ _ _ Hfresh) in H.
    destruct (IH (acc ++ [(k, u0)]) users) as [new [Hu HF]].
    + unfold dict_keys. rewrite map_app. cbn [map fst].
      rewrite <- app_assoc. exact Hnd.
    + exact H.
    + exists ((k, u0) :: new). split.
      * rewrite Hu, <- app_assoc. reflexivity.
      * constructor; [| exact HF]. split; [reflexivity |].
        apply filter_user_spec. exact Hu0.
Qed.

Lemma entry_built_keys (d : Dict PyVal) (users : Dict User) :
  Forall2 entry_built d users -> dict_keys users = dict_keys d.
Proof.
  unfold dict_keys. induction 1 as [| kv ku d users [Hk _] _ IH];
    cbn; [reflexivity |].
  rewrite Hk, IH. reflexivity.
Qed.

Lemma entry_built_lookup (d : Dict PyVal) (users : Dict User) (k : string)
  (u : User) :
  Forall2 entry_built d users ->
  dict_get k users = Some u ->
  exists user_dict, dict_get k d = Some user_dict
                    /\ partial_user_of user_dict u.
Proof.
  induction 1 as [| [k1 ud] [k2 u2] d users [Hk Hb] _ IH];
    cbn [dict_get]; [discriminate |].
  cbn [fst snd] in Hk, Hb. subst k2.
  destruct (String.eqb k k1).
  - intros H. injection H as <-. exists ud. split; [reflexivity | exact Hb].
  - exact IH.
Qed.

(** X13.  When the keys of the reply object are distinct, as they are in a
    dictionary, the result of [filter] has the reply's keys in the reply's
    order, one User per entry, and looking a key up in the result gives the
    User built from the reply's entry under that key. *)
Theorem filter_result_follows_reply :
  forall (srv : Server) (g : option string) (us : option (list string))
         (a : option bool) (log log' : list Request)
         (d : Dict PyVal) (users : Dict User),
    srv log (filter_request g us a) = Ok (PDict d) ->
    NoDup (dict_keys d) ->
    filter srv g us a log = (Ok users, log') ->
    Forall2 entry_built d users
    /\ dict_keys users = dict_keys d
    /\ length users = length d
    /\ (forall k u, dict_get k users = Some u ->
          exists user_dict, dict_get k d = Some user_dict
                            /\ partial_user_of user_dict u).
Proof.
  intros srv g us a log log' d users Hsrv Hnd.
  unfold filter. rewrite bind_M_run, call_to_json_run, Hsrv.
  unfold lift. cbn [bind Result_Monad items].
  intros H. injection H as H _.
  destruct (filter_loop_fresh d [] users Hnd H) as [new [-> HF]].
  cbn [app]. split; [exact HF |].
  split; [apply entry_built_keys; exact HF |].
  split; [symmetry; apply (Forall2_length HF) |].
  intros k u. apply entry_built_lookup. exact HF.
Qed.

(** One user in the reply. *)
Lemma filter_result_follows_reply_witness :
  dict_keys
    [("alice",
      {| group_ids := Some (PList [PStr "admins"]);
         username := Some (PStr "alice");
         preferred_username := Some (PStr "ally");
         email := Some (PStr "alice@example.org");
         first_name := Some (PStr "Alice");
         last_name := Some (PStr "Liddell");
         tmp_password := None;
         permissions := None;
         is_active := None |})]
  = ["alice"].
Proof.
  refine (proj1 (proj2 (filter_result_follows_reply
                   (constant_service filter_reply) None None None
                   [] [filter_request None None None]
                   [("alice",
                     PDict [("group_ids", PList [PStr "admins"]);
                            ("username", PStr "alice");
                            ("preferred_username", PStr "ally");
                            ("email", PStr "alice@example.org");
                            ("first_name", PStr "Alice");
                            ("last_name", PStr "Liddell")])]
                   _ eq_refl _ eq_refl))).
  repeat constructor. intros [].
Defined.

(** ** [filter]: all entries or none *)

Lemma filter_user_ok_iff (user_dict : PyVal) :
  (exists u, filter_user user_dict = Ok u)
  <-> has_members filter_members user_dict.
Proof.
  unfold has_members, filter_members. split.
  - intros [u Hu]. apply filter_user_spec in Hu.
    destruct Hu as [g [n [p [e [f [l [Hg [Hn [Hp [He [Hf [Hl _]]]]]]]]]]]].
    destruct user_dict as [| | | | | | | d]; try discriminate Hg.
    exists d. split; [reflexivity |].
    cbn [getitem] in Hg, Hn, Hp, He, Hf, Hl.
    repeat constructor; intros E;
      match goal with
      | H : context [dict_get ?k d] |- _ =>
          rewrite E in H; discriminate H
      end.
  - intros [d [-> HF]].
    assert (Hk : forall k, In k ["group_ids"; "username";
                                 "preferred_username"; "email";
                                 "first_name"; "last_name"] ->
                           exists v, dict_get k d = Some v).
    { intros k Hin. rewrite Forall_forall in HF. specialize (HF k Hin).
      destruct (dict_get k d) as [v |]; [exists v; reflexivity |].
      exfalso. apply HF. reflexivity. }
    destruct (Hk "group_ids") as [g Hg]; [cbn; tauto |].
    destruct (Hk "username") as [n Hn]; [cbn; tauto |].
    destruct (Hk "preferred_username") as [p Hp]; [cbn; tauto |].
    destruct (Hk "email") as [e He]; [cbn; tauto |].
    destruct (Hk "first_name") as [f Hf]; [cbn; tauto |].
    destruct (Hk "last_name") as [l Hl]; [cbn; tauto |].
    unfold filter_user. cbn [getitem bind Result_Monad ret].
    rewrite Hg, Hn, Hp, He, Hf, Hl. eexists. reflexivity.
Qed.

Lemma filter_loop_ok_iff (its : Dict PyVal) :
  forall acc : Dict User,
    (exists users, filter_loop its acc = Ok users)
    <-> Forall (fun kv => has_members filter_members (snd kv)) its.
Proof.
  induction its as [| [k ud] rest IH]; intros acc; cbn [filter_loop].
  - split; [constructor | eexists; reflexivity].
  - cbn [bind Result_Monad]. split.
    + intros [users H].
      destruct (filter_user ud) as [u0 | e] eqn:Hu0; [| discriminate].
      constructor.
      * apply filter_user_ok_iff. exists u0. exact Hu0.
      * apply (IH (dict_set k u0 acc)). exists users. exact H.
    + intros HF. inversion HF as [| x l Hx Hrest]; subst.
      apply filter_user_ok_iff in Hx. destruct Hx as [u0 Hu0].
      cbn [snd] in Hu0. rewrite Hu0. apply IH. exact Hrest.
Qed.

(** X14.  [filter] returns exactly when the reply is an object whose every
    entry is an object with the six members it reads; one incomplete entry
    makes the whole call raise, with no partial result.  An empty reply
    object gives an empty result; a reply that is not an object raises
    [AttributeError]. *)
Theorem filter_all_or_nothing :
  forall (srv : Server) (g : option string) (us : option (list string))
         (a : option bool) (log : list Request) (reply : PyVal),
    srv log (filter_request g us a) = Ok reply ->
    (returns_normally (outcome (filter srv g us a) log) = true
     <-> exists d, reply = PDict d
                   /\ Forall (fun kv => has_members filter_members (snd kv))
                        d)
    /\ (reply = PDict [] -> outcome (filter srv g us a) log = Ok [])
    /\ ((forall d, reply <> PDict d) ->
        outcome (filter srv g us a) log = Raise AttributeError).
Proof.
  intros srv g us a log reply Hsrv.
  assert (Hx : outcome (filter srv g us a) log
               = match reply with
                 | PDict d => filter_loop d []
                 | _ => Raise AttributeError
                 end).
  { unfold outcome, filter. rewrite bind_M_run, call_to_json_run, Hsrv.
    destruct reply; reflexivity. }
  rewrite Hx. split; [| split].
  - split.
    + destruct reply as [| | | | | | | d]; try discriminate.
      intros H. exists d. split; [reflexivity |].
      apply (filter_loop_ok_iff d []).
      destruct (filter_loop d []) as [users | e]; [| discriminate H].
      exists users. reflexivity.
    + intros [d [-> HF]]. apply (filter_loop_ok_iff d []) in HF.
      destruct HF as [users ->]. reflexivity.
  - intros ->. reflexivity.
  - intros Hno. destruct reply as [| | | | | | | d]; try reflexivity.
    exfalso. apply (Hno d). reflexivity.
Qed.

(** One complete entry. *)
Lemma filter_all_or_nothing_witness :
  returns_normally
    (outcome (filter (constant_service filter_reply) None None None) [])
  = true.
Proof.
  apply (proj1 (filter_all_or_nothing (constant_service filter_reply)
                  None None None [] filter_reply eq_refl)).
  eexists. split; [reflexivity |].
  repeat constructor.
  eexists. split; [reflexivity |].
  repeat constructor; discriminate.
Defined.

(** ** [get] and [create]: when they return *)

Lemma first_missing_none_iff (ks : list string) (d : Dict PyVal) :
  first_missing ks d = None <-> Forall (fun k => dict_get k d <> None) ks.
Proof.
  unfold first_missing. induction ks as [| k ks IH]; cbn [find].
  - split; [constructor | reflexivity].
  - destruct (dict_get k d) as [v |] eqn:E.
    + rewrite IH. split.
      * intros H. constructor; [rewrite E; discriminate | exact H].
      * intros H. inversion H; assumption.
    + split; [discriminate |].
      intros H. inversion H as [| x l Hk _]; subst.
      exfalso. apply Hk. exact E.
Qed.

Lemma get_outcome_object (srv : Server) (name : string) (log : list Request)
  (d : Dict PyVal) :
  srv log (get_request name) = Ok (PDict d) ->
  (forall k, first_missing get_members d = Some k ->
     outcome (get srv name) log = Raise (KeyError k))
  /\ (first_missing get_members d = None ->
      exists u, outcome (get srv name) log = Ok u
                /\ tmp_password u = None).
Proof.
  intros Hsrv. unfold outcome, get.
  rewrite bind_M_run, call_to_json_run, Hsrv. unfold lift.
  cbn [fst getitem bind Result_Monad ret].
  unfold first_missing, get_members. cbn [find].
  destruct (dict_get "group_ids" d);
    [| split; [intros k H; injection H as <-; reflexivity | discriminate]].
  destruct (dict_get "username" d);
    [| split; [intros k H; injection H as <-; reflexivity | discriminate]].
  destruct (dict_get "preferred_username" d);
    [| split; [intros k H; injection H as <-; reflexivity | discriminate]].
  destruct (dict_get "email" d);
    [| split; [intros k H; injection H as <-; reflexivity | discriminate]].
  destruct (dict_get "first_name" d);
    [| split; [intros k H; injection H as <-; reflexivity | discriminate]].
  destruct (dict_get "last_name" d);
    [| split; [intros k H; injection H as <-; reflexivity | discriminate]].
  destruct (dict_get "permissions" d);
    [| split; [intros k H; injection H as <-; reflexivity | discriminate]].
  destruct (dict_get "is_active" d);
    [| split; [intros k H; injection H as <-; reflexivity | discriminate]].
  split; [discriminate |]. intros _. eexists. split; reflexivity.
Qed.

(** X15.  [get] returns exactly when the reply is an object with all eight
    members it reads; the User it returns has no temporary password.  When
    members are missing it raises [KeyError] naming the first missing one in
    the order group_ids, username, preferred_username, email, first_name,
    last_name, permissions, is_active; a reply that is not an object raises
    [TypeError]. *)
Theorem get_returns_iff_complete :
  forall (srv : Server) (name : string) (log : list Request)
         (reply : PyVal),
    srv log (get_request name) = Ok reply ->
    (returns_normally (outcome (get srv name) log) = true
     <-> has_members get_members reply)
    /\ (forall u, outcome (get srv name) log = Ok u ->
          tmp_password u = None)
    /\ (forall d k, reply = PDict d ->
          first_missing get_members d = Some k ->
          outcome (get srv name) log = Raise (KeyError k))
    /\ ((forall d, reply <> PDict d) ->
        outcome (get srv name) log = Raise TypeError).
Proof.
  intros srv name log reply Hsrv.
  destruct reply as [| | | | | | | d].
  8: {
    destruct (get_outcome_object srv name log d Hsrv) as [Hmiss Hall].
    destruct (first_missing get_members d) as [k |] eqn:Hfm.
    - rewrite (Hmiss k eq_refl).
      split; [| split; [| split]].
      + split; [discriminate |].
        intros [d' [Hd HF]]. injection Hd as <-.
        apply first_missing_none_iff in HF. congruence.
      + discriminate.
      + intros d' k' Hd Hk. injection Hd as <-.
        rewrite Hfm in Hk. injection Hk as <-. reflexivity.
      + intros Hno. exfalso. apply (Hno d). reflexivity.
    - destruct (Hall eq_refl) as [u [Hu Htmp]]. rewrite Hu.
      split; [| split; [| split]].
      + split; [| reflexivity].
        intros _. exists d. split; [reflexivity |].
        apply first_missing_none_iff. exact Hfm.
      + intros u' H. injection H as <-. exact Htmp.
      + intros d' k' Hd Hk. injection Hd as <-. congruence.
      + intros Hno. exfalso. apply (Hno d). reflexivity. }
  all: assert (Hx : outcome (get srv name) log = Raise TypeError)
         by (unfold outcome, get;
             rewrite bind_M_run, call_to_json_run, Hsrv; reflexivity);
       rewrite Hx;
       (split; [| split; [| split]]);
       [ split; [discriminate | intros [d [Hd _]]; discriminate Hd]
       | discriminate
       | intros d k Hd; discriminate Hd
       | reflexivity ].
Qed.

(** A complete reply. *)
Lemma get_returns_iff_complete_witness :
  returns_normally
    (outcome (get (constant_service full_user_reply) "alice") [])
  = true.
Proof.
  apply (proj1 (get_returns_iff_complete (constant_service full_user_reply)
                  "alice" [] full_user_reply eq_refl)).
  eexists. split; [reflexivity |].
  repeat constructor; discriminate.
Defined.

(** X16.  [create] returns exactly when the reply is an object with the
    username and tmp_password members; the User it returns has no activity
    flag.  It raises [KeyError] for username when that is missing, for
    tmp_password when only that is, and [TypeError] when the reply is not an
    object. *)
Theorem create_returns_iff_complete :
  forall (srv : Server) (e p f l : string) (u : option string)
         (g perms : option (list string)) (log : list Request)
         (reply : PyVal),
    srv log (create_request e p f l u g perms) = Ok reply ->
    (returns_normally (outcome (create srv e p f l u g perms) log) = true
     <-> has_members ["username"; "tmp_password"] reply)
    /\ (forall usr, outcome (create srv e p f l u g perms) log = Ok usr ->
          is_active usr = None)
    /\ (forall d k, reply = PDict d ->
          first_missing ["username"; "tmp_password"] d = Some k ->
          outcome (create srv e p f l u g perms) log = Raise (KeyError k))
    /\ ((forall d, reply <> PDict d) ->
        outcome (create srv e p f l u g perms) log = Raise TypeError).
Proof.
  intros srv e p f l u g perms log reply Hsrv.
  unfold outcome, create.
  rewrite bind_M_run, call_to_json_run, Hsrv. unfold lift.
  cbn [fst bind Result_Monad ret].
  destruct reply as [| | | | | | | d];
    try (cbn [getitem];
         (split; [| split; [| split]]);
         [ split; [discriminate | intros [d [Hd _]]; discriminate Hd]
         | discriminate
         | intros d k Hd; discriminate Hd
         | reflexivity ]).
  cbn [getitem]. unfold has_members.
  assert (Hfm : forall d' k, PDict d = PDict d' ->
                  first_missing ["username"; "tmp_password"] d' = Some k ->
                  first_missing ["username"; "tmp_password"] d = Some k).
  { intros d' k Hd Hk. injection Hd as <-. exact Hk. }
  unfold first_missing in Hfm. cbn [find] in Hfm.
  destruct (dict_get "username" d) as [n |] eqn:Hn.
  - destruct (dict_get "tmp_password" d) as [t |] eqn:Ht.
    + split; [| split; [| split]].
      * split; [| reflexivity]. intros _. exists d. split; [reflexivity |].
        repeat constructor; congruence.
      * intros usr H. injection H as <-. reflexivity.
      * intros d' k Hd Hk. discriminate (Hfm d' k Hd Hk).
      * intros Hno. exfalso. apply (Hno d). reflexivity.
    + split; [| split; [| split]].
      * split; [discriminate |].
        intros [d' [Hd HF]]. injection Hd as <-.
        rewrite Forall_forall in HF. exfalso.
        apply (HF "tmp_password"); [cbn; tauto | exact Ht].
      * discriminate.
      * intros d' k Hd Hk. specialize (Hfm d' k Hd Hk).
        injection Hfm as <-. reflexivity.
      * intros Hno. exfalso. apply (Hno d). reflexivity.
  - split; [| split; [| split]].
    + split; [discriminate |].
      intros [d' [Hd HF]]. injection Hd as <-.
      rewrite Forall_forall in HF. exfalso.
      apply (HF "username"); [cbn; tauto | exact Hn].
    + discriminate.
    + intros d' k Hd Hk. specialize (Hfm d' k Hd Hk).
      injection Hfm as <-. reflexivity.
    + intros Hno. exfalso. apply (Hno d). reflexivity.
Qed.

(** A reply that has the username only. *)
Lemma create_returns_iff_complete_witness :
  outcome
    (create (constant_service (PDict [("username", PStr "u-1")]))
       "a@example.org" "ally" "Al" "Ly" None None None) []
  = Raise (KeyError "tmp_password").
Proof.
  apply (proj1 (proj2 (proj2 (create_returns_iff_complete
           (constant_service (PDict [("username", PStr "u-1")]))
           "a@example.org" "ally" "Al" "Ly" None None None []
           (PDict [("username", PStr "u-1")]) eq_refl)))
           [("username", PStr "u-1")] "tmp_password" eq_refl eq_refl).
Defined.

(** ** [confirm] then [create_token] *)

(** X17.  Take a [confirm] that returned after its first request alone (no
    challenge was signalled).  The reply to that request is then an object
    whose authentication object carries a non-empty access token; and if the
    service answers the same /token/create request again as it did before,
    [create_token] with the same username and password does not raise the
    not-confirmed error: its outcome is that of building the Token from that
    very authentication object. *)
Theorem confirm_then_create_token :
  forall (srv : Server) (Token : Type)
         (Token_init : Dict PyVal -> Result Token)
         (u tmp new : string) (log : list Request),
    outcome (confirm srv u tmp new) log = Ok tt ->
    requests_made (confirm srv u tmp new) log = [token_create_request u tmp] ->
    srv (log ++ [token_create_request u tmp]) (token_create_request u tmp)
      = srv log (token_create_request u tmp) ->
    exists (d auth : Dict PyVal) (tok : PyVal),
      srv log (token_create_request u tmp) = Ok (PDict d)
      /\ dict_get "authentication" d = Some (PDict auth)
      /\ dict_get "access_token" auth = Some tok
      /\ truthy tok = true
      /\ create_token srv Token_init u tmp
           (log ++ [token_create_request u tmp])
         = (Token_init auth,
            (log ++ [token_create_request u tmp])
            ++ [token_create_request u tmp]).
Proof.
  intros srv Token Token_init u tmp new log Hok Hreq Hsame.
  rewrite confirm_run in Hok. unfold outcome in Hok.
  unfold requests_made in Hreq. rewrite confirm_log in Hreq.
  rewrite confirm_flow_run in Hok, Hreq.
  destruct (srv log (token_create_request u tmp)) as [token_json | e] eqn:Hsrv;
    [| discriminate Hok].
  destruct (getitem token_json "is_challenge") as [c | e] eqn:Hc;
    [| discriminate Hok].
  destruct (is_True c) eqn:Htrue.
  - exfalso.
    destruct (_ : Result (PyVal * PyVal)) as [[cn cs] | e];
      [| discriminate Hok].
    cbn [snd] in Hreq. rewrite <- app_assoc, skipn_length_app in Hreq.
    discriminate Hreq.
  - cbn [fst] in Hok. apply confirm_check_ok_iff in Hok.
    destruct Hok as [d [auth [tok [-> [Ha [Ht Htr]]]]]].
    exists d, auth, tok.
    split; [reflexivity |].
    split; [exact Ha |]. split; [exact Ht |]. split; [exact Htr |].
    rewrite (create_token_outcome _ _ Token_init _ _ _ _ Hsame).
    rewrite Hc, Htrue, (getitem_dict _ _ _ Ha). reflexivity.
Qed.

(** A service that issues tokens at once, every time. *)
Lemma confirm_then_create_token_witness :
  exists (d auth : Dict PyVal) (tok : PyVal),
    constant_service token_reply [] (token_create_request "alice" "pw")
    = Ok (PDict d)
    /\ dict_get "authentication" d = Some (PDict auth)
    /\ dict_get "access_token" auth = Some tok
    /\ truthy tok = true
    /\ create_token (constant_service token_reply) bag_token "alice" "pw"
         [token_create_request "alice" "pw"]
       = (bag_token auth,
          [token_create_request "alice" "pw"]
          ++ [token_create_request "alice" "pw"]).
Proof.
  apply (confirm_then_create_token (constant_service token_reply) _
           bag_token "alice" "pw" "new" [] eq_refl eq_refl eq_refl).
Defined.
